(** * Fatherhood Initiative API: authentication flow and public signup

    A shallow embedding of the request handlers of the service
    ([routes/auth], [routes/fatherhood], [middleware/auth]) and the
    properties of its specification that concern them.

    The handlers are asynchronous JavaScript functions that talk to
    collaborators outside the repository: the hosted datastore client,
    the password hasher, the token library, the clock and the console.
    A handler is embedded as a program of a small free monad [Prog]
    whose operations are exactly those calls; a program is run against
    an arbitrary environment, which answers every call and may carry any
    state.  A statement quantified over all environments therefore holds
    whatever the datastore contains and however the collaborators behave.

    Two parts of the public signup route are not among the sources: the
    rate limiter, which is modelled from the specification, and the
    field validation, which is a parameter of the route. *)

From Stdlib Require Import ZArith Ascii String DecimalString Bool Lia.
From stdpp Require Import gmap strings list fin_maps.

Local Open Scope string_scope.

(** ** JavaScript values

    A field of a parsed JSON request body, a column of a datastore row
    and a claim of a decoded token are JavaScript values.  The model
    covers the scalars; [JUndefined] is what reading an absent property
    gives.  Numbers are the integral ones.  A string is a sequence of
    UTF-16 code units; the model covers the code units below 256, one
    [ascii] each, so that [String.length] is the JavaScript [length]. *)

Inductive JsValue : Type :=
| JUndefined
| JNull
| JBool (b : bool)
| JNumber (n : Z)
| JString (s : string).

(** What is handed to [res.json]: objects and arrays over scalars. *)
Unset Elimination Schemes.
Inductive Json : Type :=
| JVal (v : JsValue)
| JArr (items : list Json)
| JObj (fields : list (string * Json)).
Set Elimination Schemes.

Coercion JVal : JsValue >-> Json.

Definition jstr (s : string) : Json := JVal (JString s).
Definition jtrue : Json := JVal (JBool true).
Definition jfalse : Json := JVal (JBool false).

(** [!v] is [negb (truthy v)]. *)
Definition truthy (v : JsValue) : bool :=
  match v with
  | JUndefined | JNull => false
  | JBool b => b
  | JNumber n => negb (n =? 0)%Z
  | JString s => negb (s =? "")
  end.

(** [a || b] on values. *)
Definition js_or (a b : JsValue) : JsValue := if truthy a then a else b.

(** [String(v)], the conversion a regular expression applies to its
    argument and a template literal to its holes.  A number is printed
    in plain decimal notation, as JavaScript prints an integer below
    1e21. *)
Definition js_to_string (v : JsValue) : string :=
  match v with
  | JUndefined => "undefined"
  | JNull => "null"
  | JBool true => "true"
  | JBool false => "false"
  | JNumber n => NilZero.string_of_int (Z.to_int n)
  | JString s => s
  end.

(** [a === b] against a string constant. *)
Definition strict_eq_string (v : JsValue) (s : string) : bool :=
  match v with
  | JString t => t =? s
  | _ => false
  end.

(** [array.includes(v)] for an array of strings. *)
Definition includes (l : list string) (v : JsValue) : bool :=
  existsb (strict_eq_string v) l.

(** Property lookup on an object literal. *)
Fixpoint lookup_field (k : string) (fields : list (string * Json)) : option Json :=
  match fields with
  | [] => None
  | (k', v) :: rest => if k' =? k then Some v else lookup_field k rest
  end.

Definition json_field (k : string) (j : Json) : option Json :=
  match j with
  | JObj fields => lookup_field k fields
  | _ => None
  end.

(** ** Strings *)

Definition code (c : ascii) : nat := nat_of_ascii c.

Definition in_range (lo hi : nat) (c : ascii) : bool :=
  (lo <=? code c)%nat && (code c <=? hi)%nat.

(** The classes [[a-z]], [[A-Z]] and [\d]. *)
Definition is_lower : ascii -> bool := in_range 97 122.
Definition is_upper : ascii -> bool := in_range 65 90.
Definition is_digit : ascii -> bool := in_range 48 57.

(** [.] matches every code unit except the line terminators. *)
Definition is_line_terminator (c : ascii) : bool :=
  (code c =? 10)%nat || (code c =? 13)%nat.

(** White space and line terminators, as [trim] strips them. *)
Definition is_js_space (c : ascii) : bool :=
  in_range 9 13 c || (code c =? 32)%nat || (code c =? 160)%nat.

Fixpoint chars (s : string) : list ascii :=
  match s with
  | EmptyString => []
  | String c r => c :: chars r
  end.

Fixpoint trim_start (s : string) : string :=
  match s with
  | EmptyString => EmptyString
  | String c r => if is_js_space c then trim_start r else s
  end.

(** Strips trailing white space: a space is dropped when nothing but
    white space follows it. *)
Fixpoint trim_end (s : string) : string :=
  match s with
  | EmptyString => EmptyString
  | String c r =>
      match trim_end r with
      | EmptyString => if is_js_space c then EmptyString else String c EmptyString
      | r' => String c r'
      end
  end.

Definition js_trim (s : string) : string := trim_end (trim_start s).

Definition lower_char (c : ascii) : ascii :=
  if is_upper c || (in_range 192 222 c && negb (code c =? 215)%nat)
  then ascii_of_nat (code c + 32)
  else c.

Fixpoint js_toLowerCase (s : string) : string :=
  match s with
  | EmptyString => EmptyString
  | String c r => String (lower_char c) (js_toLowerCase r)
  end.

(** [s.split(sep)] for a separator of one code unit.  The result is
    never empty; adjacent separators give empty components. *)
Fixpoint split_on (sep : ascii) (s : string) : list string :=
  match s with
  | EmptyString => [EmptyString]
  | String c r =>
      if Ascii.eqb c sep then EmptyString :: split_on sep r
      else match split_on sep r with
           | [] => [String c EmptyString]
           | h :: t => String c h :: t
           end
  end.

(** *** The password pattern

    [/^(?=.*[a-z])(?=.*[A-Z])(?=.*\d).{8,}$/], without flags.
    [dotstar_then cls] is the lookahead [(?=.*cls)] at the start of the
    input: [.*] may consume any run of code units that are not line
    terminators before a member of [cls] is met. *)
Fixpoint dotstar_then (cls : ascii -> bool) (s : string) : bool :=
  match s with
  | EmptyString => false
  | String c r => cls c || (negb (is_line_terminator c) && dotstar_then cls r)
  end.

(** [.{8,}$] from the start of the input: at least eight code units,
    none of them a line terminator, up to the end. *)
Definition dots_to_end (n : nat) (s : string) : bool :=
  (n <=? String.length s)%nat && forallb (fun c => negb (is_line_terminator c)) (chars s).

Definition passwordRegex_test (s : string) : bool :=
  dotstar_then is_lower s && dotstar_then is_upper s && dotstar_then is_digit s
  && dots_to_end 8 s.

(** The strength rule in the words of the specification: minimum 8
    characters, at least one uppercase letter, one lowercase letter and
    one digit. *)
Definition strength_rule (s : string) : bool :=
  (8 <=? String.length s)%nat
  && existsb is_upper (chars s)
  && existsb is_lower (chars s)
  && existsb is_digit (chars s).

(** ** Collaborators

    The datastore client answers a query with a pair [{ data, error }];
    the handlers read both.  An awaited call may also reject, and a
    synchronous library call may throw: [Rejected]. *)

Record PgError : Type := { pg_code : string; pg_message : string }.

Record PgResult (A : Type) : Type :=
  { pg_data : option A; pg_error : option PgError }.

Arguments pg_data {A} _.
Arguments pg_error {A} _.

(** What a [catch] clause receives: an [Error] with its [name], or a
    datastore error object rethrown by a handler (which has no [name]). *)
Inductive Thrown : Type :=
| ThrownError (name message : string)
| ThrownPg (e : PgError).

Definition thrown_name (e : Thrown) : JsValue :=
  match e with
  | ThrownError n _ => JString n
  | ThrownPg _ => JUndefined
  end.

Inductive Outcome (A : Type) : Type :=
| Resolved (a : A)
| Rejected (e : Thrown).

Arguments Resolved {A} _.
Arguments Rejected {A} _.

(** The columns of an [admin_users] row that the handlers read. *)
Record AdminUser : Type :=
  { user_id : JsValue;
    user_email : JsValue;
    user_name : JsValue;
    password_hash : JsValue;
    is_active : JsValue;
    first_login : JsValue }.

(** The columns of an inserted [fatherhood_signups] row that the public
    signup handler reads back. *)
Record SignupRow : Type :=
  { row_full_name : JsValue;
    row_email : JsValue;
    row_signup_date : JsValue }.

(** The identity attached to a request by the middleware, [req.user]. *)
Record ReqUser : Type :=
  { claim_id : JsValue;
    claim_email : JsValue;
    claim_name : JsValue }.

(** An object literal of scalars, as passed to [insert], [update] and
    [jwt.sign]. *)
Definition Fields : Type := list (string * JsValue).

(** The calls the handlers make, indexed by the type of their answer.
    An operation answered by an [Outcome] can fail by rejecting or
    throwing; the clock and the console cannot.  The existence check of
    the public signup selects the [id] of the row it finds; the status
    update returns the updated row, which the handler only passes on. *)
Inductive Op : Type -> Type :=
| AdminUsersSelectByEmail (pattern : string)
  : Op (Outcome (PgResult AdminUser))
    (* supabaseAdmin.from('admin_users').select('*').ilike('email', pattern).single() *)
| AdminUsersUpdate (values : Fields) (id : JsValue)
  : Op (Outcome (PgResult unit))
    (* supabaseAdmin.from('admin_users').update(values).eq('id', id) *)
| SignupsSelectIdByEmail (pattern : JsValue)
  : Op (Outcome (PgResult JsValue))
    (* supabase.from('fatherhood_signups').select('id').ilike('email', pattern).maybeSingle() *)
| SignupsInsert (row : Fields)
  : Op (Outcome (PgResult SignupRow))
    (* supabase.from('fatherhood_signups').insert([row]).select().single() *)
| SignupsUpdateStatus (status : JsValue) (id : string)
  : Op (Outcome (PgResult Json))
    (* supabaseAdmin.from('fatherhood_signups').update({ status }).eq('id', id).select().single() *)
| BcryptCompare (data hash : JsValue) : Op (Outcome bool)
| BcryptHash (data : JsValue) (saltRounds : nat) : Op (Outcome string)
| JwtSign (payload : Fields) (secret : string) (expiresIn : string)
  : Op (Outcome string)
| JwtVerify (token secret : string) : Op (Outcome ReqUser)
| DateNowIso : Op string
    (* new Date().toISOString() *)
| ConsoleError (msg : string) (detail : option Thrown) : Op unit
| ConsoleLog (msg : string) : Op unit.

Definition is_datastore_op {X : Type} (op : Op X) : bool :=
  match op with
  | AdminUsersSelectByEmail _ | AdminUsersUpdate _ _
  | SignupsSelectIdByEmail _ | SignupsInsert _ | SignupsUpdateStatus _ _ => true
  | _ => false
  end.

Definition is_datastore_write {X : Type} (op : Op X) : bool :=
  match op with
  | AdminUsersUpdate _ _ | SignupsInsert _ | SignupsUpdateStatus _ _ => true
  | _ => false
  end.

(** ** Programs *)

Inductive Prog (R : Type) : Type :=
| Ret (r : R)
| Throw (e : Thrown)
| Call {X : Type} (op : Op X) (k : X -> Prog R).

Arguments Ret {R} _.
Arguments Throw {R} _.
Arguments Call {R X} _ _.

Fixpoint bind {A B : Type} (p : Prog A) (f : A -> Prog B) : Prog B :=
  match p with
  | Ret a => f a
  | Throw e => Throw e
  | Call op k => Call op (fun x => bind (k x) f)
  end.

#[global] Instance prog_ret : MRet Prog := @Ret.
#[global] Instance prog_bind : MBind Prog := fun A B f p => bind p f.

(** [try { p } catch (error) { h error }] *)
Fixpoint try_catch {R : Type} (p : Prog R) (h : Thrown -> Prog R) : Prog R :=
  match p with
  | Ret r => Ret r
  | Throw e => h e
  | Call op k => Call op (fun x => try_catch (k x) h)
  end.

(** A call that cannot fail. *)
Definition perform {X : Type} (op : Op X) : Prog X := Call op Ret.

(** [await] of a call, and a synchronous call that may throw. *)
Definition await {X : Type} (op : Op (Outcome X)) : Prog X :=
  Call op (fun o => match o with
                    | Resolved x => Ret x
                    | Rejected e => Throw e
                    end).

(** Calling a string method on a value: a [TypeError] unless the value
    is a string.  (On [undefined] and [null] the property access itself
    throws a [TypeError]; on the other scalars the property is missing
    and the call throws one.) *)
Definition string_method (f : string -> string) (method : string) (v : JsValue)
  : Prog string :=
  match v with
  | JString s => Ret (f s)
  | _ => Throw (ThrownError "TypeError" (method ++ " is not a function"))
  end.

(** ** Running a program

    An environment answers every call from its current state. *)
Record Env : Type :=
  { env_state : Type;
    env_answer : forall X : Type, Op X -> env_state -> X * env_state }.

Inductive Event : Type :=
| Ev {X : Type} (op : Op X) (answer : X).

Inductive Completion (R : Type) : Type :=
| Returned (r : R)
| Threw (e : Thrown).

Arguments Returned {R} _.
Arguments Threw {R} _.

Fixpoint run (E : Env) {R : Type} (p : Prog R) (s : env_state E)
  : Completion R * env_state E * list Event :=
  match p with
  | Ret r => (Returned r, s, [])
  | Throw e => (Threw e, s, [])
  | Call op k =>
      let '(x, s1) := env_answer E _ op s in
      let '(c, s2, tr) := run E (k x) s1 in
      (c, s2, Ev op x :: tr)
  end.

Definition completion {R S : Type} (r : Completion R * S * list Event) : Completion R :=
  r.1.1.
Definition final_state {R S : Type} (r : Completion R * S * list Event) : S :=
  r.1.2.
Definition trace {R S : Type} (r : Completion R * S * list Event) : list Event :=
  r.2.

Definition event_is (f : forall Y : Type, Op Y -> bool) (e : Event) : bool :=
  match e with
  | Ev op _ => f _ op
  end.

Definition datastore_calls (tr : list Event) : list Event :=
  List.filter (event_is (@is_datastore_op)) tr.

(** ** Configuration and responses *)

(** The module-level state a handler reads: whether the privileged
    datastore client was created ([supabaseAdmin] is not [null]), and
    [process.env.JWT_SECRET]. *)
Record Config : Type :=
  { supabaseAdmin : bool;
    JWT_SECRET : option string }.

(** [jwtSecret] when it is truthy: set and not the empty string. *)
Definition truthy_secret (cfg : Config) : option string :=
  match JWT_SECRET cfg with
  | Some s => if s =? "" then None else Some s
  | None => None
  end.

Record Response : Type :=
  { status_code : Z;
    json_body : Json }.

(** [res.status(code).json({ fields })]; [res.json] alone answers 200. *)
Definition respond (code : Z) (fields : list (string * Json)) : Response :=
  {| status_code := code; json_body := JObj fields |}.

Definition error_response (code : Z) (error message : string) : Response :=
  respond code [("error", jstr error); ("message", jstr message)].

(** ** [middleware/auth]: [authenticateToken] *)

Module Middleware.

(** [authHeader && authHeader.split(' ')[1]]: [None] stands for a falsy
    result, which is all the guard [!token] looks at. *)
Definition header_token (authHeader : option string) : option string :=
  match authHeader with
  | None => None
  | Some h =>
      if h =? "" then None
      else match nth_error (split_on " " h) 1 with
           | Some t => if t =? "" then None else Some t
           | None => None
           end
  end.

Definition no_token : Response :=
  error_response 401 "Unauthorized" "No authentication token provided".
Definition not_configured : Response :=
  error_response 500 "Server configuration error"
    "Authentication system not properly configured".
Definition token_expired : Response :=
  error_response 401 "Unauthorized" "Token has expired. Please log in again.".
Definition invalid_token : Response :=
  error_response 401 "Unauthorized" "Invalid token".
Definition verification_failed : Response :=
  error_response 500 "Authentication error" "Failed to verify authentication token".

(** The [try] block and its [catch]: verify the token and attach the
    identity ([inr], the middleware calls [next()]) or answer ([inl]). *)
Definition verify_token (cfg : Config) (token : string) : Prog (Response + ReqUser) :=
  try_catch
    (match truthy_secret cfg with
     | None =>
         perform (ConsoleError "JWT_SECRET not configured" None);;
         mret (inl not_configured)
     | Some jwtSecret =>
         decoded ← await (JwtVerify token jwtSecret);
         mret (inr {| claim_id := claim_id decoded;
                      claim_email := claim_email decoded;
                      claim_name := claim_name decoded |})
     end)
    (fun error =>
       if strict_eq_string (thrown_name error) "TokenExpiredError"
       then mret (inl token_expired)
       else if strict_eq_string (thrown_name error) "JsonWebTokenError"
       then mret (inl invalid_token)
       else
         perform (ConsoleError "Token verification error:" (Some error));;
         mret (inl verification_failed)).

Definition authenticateToken (cfg : Config) (authHeader : option string)
  : Prog (Response + ReqUser) :=
  match header_token authHeader with
  | None => mret (inl no_token)
  | Some token => verify_token cfg token
  end.

(** [router.method(path, authenticateToken, handler)] *)
Definition protected (cfg : Config) (authHeader : option string)
  (handler : ReqUser -> Prog Response) : Prog Response :=
  d ← authenticateToken cfg authHeader;
  match d with
  | inl response => mret response
  | inr user => handler user
  end.

End Middleware.

(** ** [routes/auth] *)

Module Auth.

(** [const { email, password } = req.body] *)
Record Body : Type :=
  { email : JsValue;
    password : JsValue }.

Definition validation_failed : Response :=
  error_response 400 "Validation failed" "Email and password are required".
Definition service_unavailable : Response :=
  error_response 503 "Service unavailable"
    "Admin authentication service is not configured".
Definition invalid_credentials : Response :=
  error_response 401 "Invalid credentials" "Invalid email or password".
Definition account_disabled : Response :=
  error_response 403 "Account disabled"
    "Your account has been disabled. Please contact an administrator.".
Definition password_not_set (user : AdminUser) : Response :=
  respond 403 [("error", jstr "Password not set");
               ("message", jstr "Please set your password first");
               ("requiresPasswordSetup", jtrue);
               ("email", JVal (user_email user));
               ("name", JVal (user_name user))].
Definition configuration_error : Response :=
  error_response 500 "Server configuration error"
    "Authentication system not properly configured".
Definition login_error : Response :=
  error_response 500 "Server error" "An unexpected error occurred during login".
Definition login_successful (token : string) (user : AdminUser) : Response :=
  respond 200 [("success", jtrue);
               ("message", jstr "Login successful");
               ("token", jstr token);
               ("user", JObj [("id", JVal (user_id user));
                              ("email", JVal (user_email user));
                              ("name", JVal (user_name user));
                              ("firstLogin", JVal (first_login user))])].

(** [email.trim().toLowerCase()] *)
Definition email_pattern (email : JsValue) : Prog string :=
  trimmed ← string_method js_trim "email.trim" email;
  mret (js_toLowerCase trimmed).

(** The payload of [jwt.sign]. *)
Definition token_payload (user : AdminUser) : Fields :=
  [("id", user_id user); ("email", user_email user); ("name", user_name user)].

(** [POST /api/auth/login] *)
Definition login (cfg : Config) (body : Body) : Prog Response :=
  try_catch
    (if negb (truthy (email body)) || negb (truthy (password body))
     then mret validation_failed
     else if negb (supabaseAdmin cfg)
     then mret service_unavailable
     else
       pattern ← email_pattern (email body);
       found ← await (AdminUsersSelectByEmail pattern);
       match pg_error found, pg_data found with
       | Some _, _ | None, None => mret invalid_credentials
       | None, Some user =>
           if negb (truthy (is_active user))
           then mret account_disabled
           else if negb (truthy (password_hash user))
           then mret (password_not_set user)
           else
             passwordValid ← await (BcryptCompare (password body) (password_hash user));
             if negb passwordValid
             then mret invalid_credentials
             else
               match truthy_secret cfg with
               | None =>
                   perform (ConsoleError "JWT_SECRET not configured" None);;
                   mret configuration_error
               | Some jwtSecret =>
                   token ← await (JwtSign (token_payload user) jwtSecret "24h");
                   last_login_at ← perform DateNowIso;
                   last_activity_at ← perform DateNowIso;
                   await (AdminUsersUpdate
                            [("last_login_at", JString last_login_at);
                             ("last_activity_at", JString last_activity_at);
                             ("first_login", JBool false)]
                            (user_id user));;
                   mret (login_successful token user)
               end
       end)
    (fun error =>
       perform (ConsoleError "Login error:" (Some error));;
       mret login_error).

Definition requirements_not_met : Response :=
  error_response 400 "Password requirements not met"
    "Password must be at least 8 characters with at least one uppercase letter, one lowercase letter, and one number".
Definition user_not_found : Response :=
  error_response 404 "User not found" "No account found with this email address".
Definition setup_error : Response :=
  error_response 500 "Server error" "Failed to set password. Please try again.".
Definition password_set (token : string) (user : AdminUser) : Response :=
  respond 200 [("success", jtrue);
               ("message", jstr "Password set successfully");
               ("token", jstr token);
               ("user", JObj [("id", JVal (user_id user));
                              ("email", JVal (user_email user));
                              ("name", JVal (user_name user));
                              ("firstLogin", jfalse)])].

Definition saltRounds : nat := 12.

(** [POST /api/auth/setup-password] *)
Definition setup_password (cfg : Config) (body : Body) : Prog Response :=
  try_catch
    (if negb (truthy (email body)) || negb (truthy (password body))
     then mret validation_failed
     else if negb (passwordRegex_test (js_to_string (password body)))
     then mret requirements_not_met
     else if negb (supabaseAdmin cfg)
     then mret service_unavailable
     else
       pattern ← email_pattern (email body);
       found ← await (AdminUsersSelectByEmail pattern);
       match pg_error found, pg_data found with
       | Some _, _ | None, None => mret user_not_found
       | None, Some user =>
           if negb (truthy (is_active user))
           then mret account_disabled
           else
             passwordHash ← await (BcryptHash (password body) saltRounds);
             updated_at ← perform DateNowIso;
             updated ← await (AdminUsersUpdate
                                [("password_hash", JString passwordHash);
                                 ("first_login", JBool false);
                                 ("updated_at", JString updated_at)]
                                (user_id user));
             match pg_error updated with
             | Some updateError =>
                 perform (ConsoleError "Password update error:"
                            (Some (ThrownPg updateError)));;
                 Throw (ThrownPg updateError)
             | None =>
                 match truthy_secret cfg with
                 | None =>
                     perform (ConsoleError "JWT_SECRET not configured" None);;
                     mret configuration_error
                 | Some jwtSecret =>
                     token ← await (JwtSign (token_payload user) jwtSecret "24h");
                     last_login_at ← perform DateNowIso;
                     last_activity_at ← perform DateNowIso;
                     await (AdminUsersUpdate
                              [("last_login_at", JString last_login_at);
                               ("last_activity_at", JString last_activity_at)]
                              (user_id user));;
                     mret (password_set token user)
                 end
             end
       end)
    (fun error =>
       perform (ConsoleError "Setup password error:" (Some error));;
       mret setup_error).

(** [GET /api/auth/verify], after the middleware *)
Definition verify (user : ReqUser) : Prog Response :=
  try_catch
    (mret (respond 200 [("success", jtrue);
                        ("user", JObj [("id", JVal (claim_id user));
                                       ("email", JVal (claim_email user));
                                       ("name", JVal (claim_name user))])]))
    (fun error =>
       perform (ConsoleError "Verify token error:" (Some error));;
       mret (error_response 500 "Server error" "Failed to verify token")).

(** The update both activity handlers make, guarded by
    [supabaseAdmin && req.user?.id]. *)
Definition touch_activity (cfg : Config) (user : ReqUser) : Prog unit :=
  if supabaseAdmin cfg && truthy (claim_id user)
  then
    last_activity_at ← perform DateNowIso;
    await (AdminUsersUpdate [("last_activity_at", JString last_activity_at)]
             (claim_id user));;
    mret tt
  else mret tt.

Definition logged_out : Response :=
  respond 200 [("success", jtrue); ("message", jstr "Logged out successfully")].

(** [POST /api/auth/logout], after the middleware *)
Definition logout (cfg : Config) (user : ReqUser) : Prog Response :=
  try_catch
    (touch_activity cfg user;;
     mret logged_out)
    (fun error =>
       perform (ConsoleError "Logout error:" (Some error));;
       mret logged_out).

Definition activity_updated : Response := respond 200 [("success", jtrue)].

(** [POST /api/auth/update-activity], after the middleware *)
Definition update_activity (cfg : Config) (user : ReqUser) : Prog Response :=
  try_catch
    (touch_activity cfg user;;
     mret activity_updated)
    (fun error =>
       perform (ConsoleError "Update activity error:" (Some error));;
       mret activity_updated).

End Auth.

(** ** [routes/fatherhood] *)

Module Fatherhood.

(** The fields the public signup handler takes from [req.body]. *)
Record SignupBody : Type :=
  { full_name : JsValue;
    email : JsValue;
    phone_number : JsValue;
    address : JsValue;
    zip_code : JsValue;
    number_of_children : JsValue;
    children_ages : JsValue;
    referral_source : JsValue;
    interests : JsValue;
    availability : JsValue;
    additional_notes : JsValue;
    consent_to_contact : JsValue;
    consent_to_sms : JsValue }.

(** [v !== false] *)
Definition not_false (v : JsValue) : bool :=
  match v with
  | JBool false => false
  | _ => true
  end.

(** The row handed to [insert], given the lowercased email. *)
Definition signup_row (body : SignupBody) (lowered : string) : Fields :=
  [("full_name", full_name body);
   ("email", JString lowered);
   ("phone_number", phone_number body);
   ("address", js_or (address body) JNull);
   ("zip_code", js_or (zip_code body) JNull);
   ("number_of_children", js_or (number_of_children body) JNull);
   ("children_ages", js_or (children_ages body) JNull);
   ("referral_source", js_or (referral_source body) JNull);
   ("interests", js_or (interests body) JNull);
   ("availability", js_or (availability body) JNull);
   ("additional_notes", js_or (additional_notes body) JNull);
   ("consent_to_contact", JBool (not_false (consent_to_contact body)));
   ("consent_to_sms", js_or (consent_to_sms body) (JBool false));
   ("status", JString "pending")].

Definition already_registered : Response :=
  error_response 409 "Email already registered"
    "This email is already signed up for the Fatherhood Initiative. If you need to update your information, please contact fatherhood@manupinc.org".
Definition already_registered_on_insert : Response :=
  error_response 409 "Email already registered" "This email is already signed up.".
Definition save_failed : Response :=
  error_response 500 "Failed to save signup"
    "We couldn't process your signup. Please try again or contact fatherhood@manupinc.org".
Definition signup_error : Response :=
  error_response 500 "Server error" "An unexpected error occurred. Please try again.".
Definition signed_up (data : SignupRow) : Response :=
  respond 201 [("success", jtrue);
               ("message", jstr "Thank you for signing up for the Fatherhood Initiative!");
               ("data", JObj [("full_name", JVal (row_full_name data));
                              ("email", JVal (row_email data));
                              ("signup_date", JVal (row_signup_date data))])].

(** The error code of a unique-constraint violation. *)
Definition unique_violation : string := "23505".

(** The handler of [POST /api/fatherhood/signup], reached after the
    rate limiter and the field validation.  (The log line of a new
    signup is given without its leading pictogram.) *)
Definition signup (body : SignupBody) : Prog Response :=
  try_catch
    (checked ← await (SignupsSelectIdByEmail (email body));
     match pg_error checked with
     | Some checkError =>
         perform (ConsoleError "Email check error:" (Some (ThrownPg checkError)))
     | None => mret tt
     end;;
     match pg_data checked with
     | Some existing => mret already_registered
     | None =>
         lowered ← string_method js_toLowerCase "email.toLowerCase" (email body);
         inserted ← await (SignupsInsert (signup_row body lowered));
         match pg_error inserted with
         | Some error =>
             perform (ConsoleError "Supabase insert error:" (Some (ThrownPg error)));;
             if pg_code error =? unique_violation
             then mret already_registered_on_insert
             else mret save_failed
         | None =>
             match pg_data inserted with
             | None =>
                 Throw (ThrownError "TypeError" "Cannot read properties of null")
             | Some data =>
                 perform (ConsoleLog ("New Fatherhood signup: "
                                        ++ js_to_string (row_full_name data)
                                        ++ " (" ++ js_to_string (row_email data) ++ ")"));;
                 mret (signed_up data)
             end
         end
     end)
    (fun error =>
       perform (ConsoleError "Signup error:" (Some error));;
       mret signup_error).

Definition validStatuses : list string :=
  ["pending"; "contacted"; "enrolled"; "inactive"; "completed"].

Definition admin_not_configured : Response :=
  respond 503 [("error", jstr "Admin access not configured")].
Definition invalid_status : Response :=
  respond 400 [("error", jstr "Invalid status");
               ("validStatuses", JArr (map jstr validStatuses))].
Definition update_status_failed : Response :=
  respond 500 [("error", jstr "Failed to update status")].

(** The handler of [PATCH /api/fatherhood/signups/:id/status], after
    the middleware; [id] is [req.params.id], [status] is
    [req.body.status].  (The log line is given without its leading
    pictogram.) *)
Definition update_status (cfg : Config) (id : string) (status : JsValue)
  : Prog Response :=
  try_catch
    (if negb (supabaseAdmin cfg)
     then mret admin_not_configured
     else if negb (includes validStatuses status)
     then mret invalid_status
     else
       updated ← await (SignupsUpdateStatus status id);
       match pg_error updated with
       | Some error => Throw (ThrownPg error)
       | None =>
           perform (ConsoleLog ("Updated signup " ++ id ++ " status to: "
                                  ++ js_to_string status));;
           mret (respond 200 [("success", jtrue);
                              ("data", match pg_data updated with
                                       | Some data => data
                                       | None => JVal JNull
                                       end)])
       end)
    (fun error =>
       perform (ConsoleError "Update status error:" (Some error));;
       mret update_status_failed).

(** *** The rate limiter of the public signup route *)

Record LimiterOptions : Type :=
  { windowMs : Z;
    max : nat;
    message : Json }.

(** The options the route is configured with. *)
Definition signupLimiter : LimiterOptions :=
  {| windowMs := 60 * 60 * 1000;
     max := 5;
     message := JObj [("error", jstr "Too many signup attempts");
                      ("message", jstr "Too many signup attempts from this IP, please try again later.")] |}.

(** The accepted attempts that still count at time [now]: those less
    than [windowMs] old. *)
Definition recent (opts : LimiterOptions) (now : Z) (accepted : list Z) : list Z :=
  List.filter (fun t => (now - windowMs opts <? t)%Z) accepted.

(** Modelled from the spec: [rateLimit], the limiter middleware of the
    express-rate-limit package, is not among the sources; only its
    options and its place in the route are.  Following the
    specification, the limiter keeps process-local state keyed by
    source IP (here the arrival times of the attempts it accepted), lets
    at most [max] attempts per source IP through in any rolling window
    of [windowMs] milliseconds, and answers an excess request with 429
    and the configured message without calling the rest of the route.
    The result is the answer of the limiter, if it answers, and the new
    state. *)
Definition rateLimit (opts : LimiterOptions) (st : gmap string (list Z))
  (ip : string) (now : Z) : option Response * gmap string (list Z) :=
  let accepted := default [] (st !! ip) in
  if (length (recent opts now accepted) <? max opts)%nat
  then (None, <[ip := now :: accepted]> st)
  else (Some {| status_code := 429; json_body := message opts |}, st).

Section Route.

(** The field validation ([signupValidation], [validate] of
    [middleware/validation]) is not among the sources: it either answers
    the request itself or passes a body on to the handler. *)
Variable validate : SignupBody -> Response + SignupBody.

(** [router.post('/signup', signupLimiter, ...signupValidation, validate, handler)] *)
Definition signup_route (st : gmap string (list Z)) (ip : string) (now : Z)
  (body : SignupBody) : Prog Response * gmap string (list Z) :=
  match rateLimit signupLimiter st ip now with
  | (Some too_many, st') => (mret too_many, st')
  | (None, st') =>
      (match validate body with
       | inl invalid => mret invalid
       | inr body' => signup body'
       end, st')
  end.

End Route.

(** A submission: source IP and arrival time in milliseconds. *)
Definition Submission : Type := string * Z.

(** The limiter serving a sequence of submissions: each one paired with
    whether it was let through. *)
Fixpoint serve (opts : LimiterOptions) (st : gmap string (list Z))
  (subs : list Submission) : list (Submission * bool) :=
  match subs with
  | [] => []
  | (ip, now) :: rest =>
      let '(answer, st') := rateLimit opts st ip now in
      ((ip, now), match answer with None => true | Some _ => false end)
        :: serve opts st' rest
  end.

(** The state of the limiter after a sequence of submissions. *)
Fixpoint state_after (opts : LimiterOptions) (st : gmap string (list Z))
  (subs : list Submission) : gmap string (list Z) :=
  match subs with
  | [] => st
  | (ip, now) :: rest => state_after opts (rateLimit opts st ip now).2 rest
  end.

(** The arrival times of the submissions of [ip] that were let through. *)
Definition accepted_times (ip : string) (log : list (Submission * bool)) : list Z :=
  flat_map (fun entry : Submission * bool =>
              if entry.2 && (entry.1.1 =? ip) then [entry.1.2] else []) log.

(** The window of [windowMs] milliseconds that starts at [from]. *)
Definition in_window (opts : LimiterOptions) (from t : Z) : bool :=
  (from <=? t)%Z && (t <? from + windowMs opts)%Z.

(** The invariant of the limiter state: every window holds at most [max]
    remembered attempts of each source IP. *)
Definition bounded (opts : LimiterOptions) (st : gmap string (list Z)) : Prop :=
  forall (ip : string) (from : Z),
    (length (List.filter (in_window opts from) (default [] (st !! ip))) <= max opts)%nat.

End Fatherhood.

(** ** Observing a run

    The answers a run received to one kind of call, in order. *)

Definition answers_of {A : Type} (sel : forall X : Type, Op X -> X -> option A)
  (tr : list Event) : list A :=
  flat_map (fun e => match e with
                     | Ev op x => match sel _ op x with
                                  | Some a => [a]
                                  | None => []
                                  end
                     end) tr.

(** The administrator lookups. *)
Definition lookups : list Event -> list (Outcome (PgResult AdminUser)) :=
  answers_of (fun X op =>
    match op in Op T return T -> option _ with
    | AdminUsersSelectByEmail _ => fun a => Some a
    | _ => fun _ => None
    end).

(** The updates of administrator rows: the values written and the answer. *)
Definition admin_updates : list Event -> list (Fields * Outcome (PgResult unit)) :=
  answers_of (fun X op =>
    match op in Op T return T -> option _ with
    | AdminUsersUpdate values _ => fun a => Some (values, a)
    | _ => fun _ => None
    end).

(** The tokens signed. *)
Definition signatures : list Event -> list (Outcome string) :=
  answers_of (fun X op =>
    match op in Op T return T -> option _ with
    | JwtSign _ _ _ => fun a => Some a
    | _ => fun _ => None
    end).

(** The existence checks and the inserts of the public signup. *)
Definition signup_checks : list Event -> list (Outcome (PgResult JsValue)) :=
  answers_of (fun X op =>
    match op in Op T return T -> option _ with
    | SignupsSelectIdByEmail _ => fun a => Some a
    | _ => fun _ => None
    end).

Definition inserts : list Event -> list (Outcome (PgResult SignupRow)) :=
  answers_of (fun X op =>
    match op in Op T return T -> option _ with
    | SignupsInsert _ => fun a => Some a
    | _ => fun _ => None
    end).

(** ** A scripted environment

    One fixed answer per kind of call; the state counts the datastore
    writes made so far. *)

Record Scenario : Type :=
  { admin_lookup : Outcome (PgResult AdminUser);
    admin_update : Outcome (PgResult unit);
    signup_check : Outcome (PgResult JsValue);
    signup_insert : Outcome (PgResult SignupRow);
    status_update : Outcome (PgResult Json);
    password_matches : Outcome bool;
    hashed : Outcome string;
    signed : Outcome string;
    verified : Outcome ReqUser;
    clock : string }.

Definition scripted_answer (sc : Scenario) (X : Type) (op : Op X) : X :=
  match op in Op T return T with
  | AdminUsersSelectByEmail _ => admin_lookup sc
  | AdminUsersUpdate _ _ => admin_update sc
  | SignupsSelectIdByEmail _ => signup_check sc
  | SignupsInsert _ => signup_insert sc
  | SignupsUpdateStatus _ _ => status_update sc
  | BcryptCompare _ _ => password_matches sc
  | BcryptHash _ _ => hashed sc
  | JwtSign _ _ _ => signed sc
  | JwtVerify _ _ => verified sc
  | DateNowIso => clock sc
  | ConsoleError _ _ => tt
  | ConsoleLog _ => tt
  end.

Definition scripted (sc : Scenario) : Env :=
  {| env_state := nat;
     env_answer := fun X op writes =>
       (scripted_answer sc X op,
        if is_datastore_write op then S writes else writes) |}.

Definition one_row (user : AdminUser) : PgResult AdminUser :=
  {| pg_data := Some user; pg_error := None |}.

Definition no_rows {A : Type} : PgResult A :=
  {| pg_data := None;
     pg_error := Some {| pg_code := "PGRST116"; pg_message := "no rows" |} |}.

Definition updated_ok : PgResult unit := {| pg_data := None; pg_error := None |}.

Definition failed {A : Type} : PgResult A :=
  {| pg_data := None;
     pg_error := Some {| pg_code := "57014"; pg_message := "statement timeout" |} |}.

(** An administrator and a deployment to run the handlers on. *)
Definition alice : AdminUser :=
  {| user_id := JNumber 7;
     user_email := JString "alice@example.org";
     user_name := JString "Alice";
     password_hash := JString "$2b$12$hash";
     is_active := JBool true;
     first_login := JBool false |}.

Definition alice_token : ReqUser :=
  {| claim_id := JNumber 7;
     claim_email := JString "alice@example.org";
     claim_name := JString "Alice" |}.

Definition production : Config :=
  {| supabaseAdmin := true; JWT_SECRET := Some "0123456789abcdef0123456789abcdef" |}.

Definition everyday : Scenario :=
  {| admin_lookup := Resolved (one_row alice);
     admin_update := Resolved updated_ok;
     signup_check := Resolved {| pg_data := None; pg_error := None |};
     signup_insert := Resolved {| pg_data := Some {| row_full_name := JString "Bob";
                                                     row_email := JString "bob@example.org";
                                                     row_signup_date := JString "2025-01-01" |};
                                  pg_error := None |};
     status_update := Resolved {| pg_data := Some (JObj [("status", jstr "contacted")]);
                                  pg_error := None |};
     password_matches := Resolved true;
     hashed := Resolved "$2b$12$fresh";
     signed := Resolved "header.payload.signature";
     verified := Resolved alice_token;
     clock := "2025-01-01T00:00:00.000Z" |}.

Definition credentials (e p : string) : Auth.Body :=
  {| Auth.email := JString e; Auth.password := JString p |}.

(** Variations of the everyday scenario. *)
Definition with_lookup (r : Outcome (PgResult AdminUser)) (sc : Scenario) : Scenario :=
  {| admin_lookup := r;
     admin_update := admin_update sc;
     signup_check := signup_check sc;
     signup_insert := signup_insert sc;
     status_update := status_update sc;
     password_matches := password_matches sc;
     hashed := hashed sc;
     signed := signed sc;
     verified := verified sc;
     clock := clock sc |}.

Definition with_password_matches (r : Outcome bool) (sc : Scenario) : Scenario :=
  {| admin_lookup := admin_lookup sc;
     admin_update := admin_update sc;
     signup_check := signup_check sc;
     signup_insert := signup_insert sc;
     status_update := status_update sc;
     password_matches := r;
     hashed := hashed sc;
     signed := signed sc;
     verified := verified sc;
     clock := clock sc |}.

Definition with_admin_update (r : Outcome (PgResult unit)) (sc : Scenario) : Scenario :=
  {| admin_lookup := admin_lookup sc;
     admin_update := r;
     signup_check := signup_check sc;
     signup_insert := signup_insert sc;
     status_update := status_update sc;
     password_matches := password_matches sc;
     hashed := hashed sc;
     signed := signed sc;
     verified := verified sc;
     clock := clock sc |}.

Definition with_signup (check : Outcome (PgResult JsValue))
  (insert : Outcome (PgResult SignupRow)) (sc : Scenario) : Scenario :=
  {| admin_lookup := admin_lookup sc;
     admin_update := admin_update sc;
     signup_check := check;
     signup_insert := insert;
     status_update := status_update sc;
     password_matches := password_matches sc;
     hashed := hashed sc;
     signed := signed sc;
     verified := verified sc;
     clock := clock sc |}.

(** Nobody is registered under the email. *)
Definition stranger : Scenario := with_lookup (Resolved no_rows) everyday.

(** The password does not match the stored hash. *)
Definition wrong_password : Scenario := with_password_matches (Resolved false) everyday.

(** Alice before her first login, and Alice disabled. *)
Definition alice_without_password : AdminUser :=
  {| user_id := user_id alice;
     user_email := user_email alice;
     user_name := user_name alice;
     password_hash := JNull;
     is_active := JBool true;
     first_login := JBool true |}.

Definition alice_disabled : AdminUser :=
  {| user_id := user_id alice;
     user_email := user_email alice;
     user_name := user_name alice;
     password_hash := password_hash alice;
     is_active := JBool false;
     first_login := first_login alice |}.

Definition alice_disabled_without_password : AdminUser :=
  {| user_id := user_id alice;
     user_email := user_email alice;
     user_name := user_name alice;
     password_hash := JNull;
     is_active := JBool false;
     first_login := JBool true |}.

(** A string without the separator of [split(' ')]. *)
Definition no_space (s : string) : bool :=
  forallb (fun c => negb (Ascii.eqb c " ")) (chars s).

(** The existence check found the email. *)
Definition duplicate_on_check : Scenario :=
  with_signup (Resolved {| pg_data := Some (JNumber 3); pg_error := None |})
    (signup_insert everyday) everyday.

(** The existence check found nothing, the insert hit the constraint. *)
Definition duplicate_on_insert : Scenario :=
  with_signup (Resolved {| pg_data := None; pg_error := None |})
    (Resolved {| pg_data := None;
                 pg_error := Some {| pg_code := "23505";
                                     pg_message := "duplicate key value violates unique constraint" |} |})
    everyday.

Definition bob : Fatherhood.SignupBody :=
  {| Fatherhood.full_name := JString "Bob";
     Fatherhood.email := JString "Bob@Example.org";
     Fatherhood.phone_number := JString "555-0100";
     Fatherhood.address := JUndefined;
     Fatherhood.zip_code := JString "10001";
     Fatherhood.number_of_children := JNumber 2;
     Fatherhood.children_ages := JUndefined;
     Fatherhood.referral_source := JUndefined;
     Fatherhood.interests := JUndefined;
     Fatherhood.availability := JUndefined;
     Fatherhood.additional_notes := JUndefined;
     Fatherhood.consent_to_contact := JUndefined;
     Fatherhood.consent_to_sms := JUndefined |}.

(** Five submissions from one address within five seconds, with one from
    another address in between; and the same followed by a sixth. *)
Definition busy_hour : list Fatherhood.Submission :=
  [("203.0.113.9", 0%Z); ("203.0.113.9", 1000%Z); ("198.51.100.7", 1500%Z);
   ("203.0.113.9", 2000%Z); ("203.0.113.9", 3000%Z); ("203.0.113.9", 4000%Z)].

Definition burst : list Fatherhood.Submission :=
  (busy_hour ++ [("203.0.113.9", 5000%Z)])%list.

(** A validation that lets every body through. *)
Definition lenient (body : Fatherhood.SignupBody) : Response + Fatherhood.SignupBody :=
  inr body.

(** ** Further observations of a run *)

(** The password comparisons: the data, the hash and the answer. *)
Definition comparisons : list Event -> list (JsValue * JsValue * Outcome bool) :=
  answers_of (fun X op =>
    match op in Op T return T -> option _ with
    | BcryptCompare data hash => fun a => Some (data, hash, a)
    | _ => fun _ => None
    end).

(** The password hashings: the data, the cost and the answer. *)
Definition hashings : list Event -> list (JsValue * nat * Outcome string) :=
  answers_of (fun X op =>
    match op in Op T return T -> option _ with
    | BcryptHash data rounds => fun a => Some (data, rounds, a)
    | _ => fun _ => None
    end).

(** The signing requests: payload, secret, lifetime and the answer. *)
Definition sign_requests : list Event -> list (Fields * string * string * Outcome string) :=
  answers_of (fun X op =>
    match op in Op T return T -> option _ with
    | JwtSign payload secret expiresIn => fun a => Some (payload, secret, expiresIn, a)
    | _ => fun _ => None
    end).

(** The token verifications: token, secret and the answer. *)
Definition verifications : list Event -> list (string * string * Outcome ReqUser) :=
  answers_of (fun X op =>
    match op in Op T return T -> option _ with
    | JwtVerify token secret => fun a => Some (token, secret, a)
    | _ => fun _ => None
    end).

(** The rows handed to the insert of the public signup. *)
Definition inserted_rows : list Event -> list Fields :=
  answers_of (fun X op =>
    match op in Op T return T -> option _ with
    | SignupsInsert row => fun _ => Some row
    | _ => fun _ => None
    end).

(** The datastore writes of a run. *)
Definition datastore_writes (tr : list Event) : list Event :=
  List.filter (event_is (@is_datastore_write)) tr.

(** Reading a property of an object literal of scalars. *)
Fixpoint get_field (k : string) (fields : Fields) : option JsValue :=
  match fields with
  | [] => None
  | (k', v) :: rest => if k' =? k then Some v else get_field k rest
  end.

(** A string without line terminators. *)
Definition single_line (s : string) : bool :=
  forallb (fun c => negb (is_line_terminator c)) (chars s).

Definition is_string (v : JsValue) : bool :=
  match v with
  | JString _ => true
  | _ => false
  end.

Definition with_verified (r : Outcome ReqUser) (sc : Scenario) : Scenario :=
  {| admin_lookup := admin_lookup sc;
     admin_update := admin_update sc;
     signup_check := signup_check sc;
     signup_insert := signup_insert sc;
     status_update := status_update sc;
     password_matches := password_matches sc;
     hashed := hashed sc;
     signed := signed sc;
     verified := r;
     clock := clock sc |}.

(** The token is not valid yet. *)
Definition not_yet_valid : Scenario :=
  with_verified (Rejected (ThrownError "NotBeforeError" "jwt not active")) everyday.

(** ** Programs over a larger signature

    The administrative routes of [routes/fatherhood] make datastore
    calls of their own.  Their programs are over a signature that
    contains the calls above and adds these; the program type is the
    same free monad, taken over any signature. *)

Inductive ProgOf (O : Type -> Type) (R : Type) : Type :=
| Finish (r : R)
| Raise (e : Thrown)
| Invoke {X : Type} (op : O X) (k : X -> ProgOf O R).

Arguments Finish {O R} _.
Arguments Raise {O R} _.
Arguments Invoke {O R X} _ _.

Fixpoint and_then {O : Type -> Type} {A B : Type} (p : ProgOf O A) (f : A -> ProgOf O B)
  : ProgOf O B :=
  match p with
  | Finish a => f a
  | Raise e => Raise e
  | Invoke op k => Invoke op (fun x => and_then (k x) f)
  end.

#[global] Instance progof_ret {O : Type -> Type} : MRet (ProgOf O) := @Finish O.
#[global] Instance progof_bind {O : Type -> Type} : MBind (ProgOf O) :=
  fun A B f p => and_then p f.

(** [try { p } catch (error) { h error }] *)
Fixpoint catching {O : Type -> Type} {R : Type} (p : ProgOf O R) (h : Thrown -> ProgOf O R)
  : ProgOf O R :=
  match p with
  | Finish r => Finish r
  | Raise e => h e
  | Invoke op k => Invoke op (fun x => catching (k x) h)
  end.

Definition invoke {O : Type -> Type} {X : Type} (op : O X) : ProgOf O X :=
  Invoke op Finish.

Definition awaiting {O : Type -> Type} {X : Type} (op : O (Outcome X)) : ProgOf O X :=
  Invoke op (fun o => match o with
                      | Resolved x => Finish x
                      | Rejected e => Raise e
                      end).

Record EnvOf (O : Type -> Type) : Type :=
  { state_of : Type;
    answer_of : forall X : Type, O X -> state_of -> X * state_of }.

Arguments state_of {O} _.
Arguments answer_of {O} _ _ _ _.

Inductive EventOf (O : Type -> Type) : Type :=
| Asked {X : Type} (op : O X) (answer : X).

Arguments Asked {O X} _ _.

Fixpoint execute {O : Type -> Type} (E : EnvOf O) {R : Type} (p : ProgOf O R)
  (s : state_of E) : Completion R * state_of E * list (EventOf O) :=
  match p with
  | Finish r => (Returned r, s, [])
  | Raise e => (Threw e, s, [])
  | Invoke op k =>
      let '(x, s1) := answer_of E _ op s in
      let '(c, s2, tr) := execute E (k x) s1 in
      (c, s2, Asked op x :: tr)
  end.

Definition result {R S T : Type} (r : Completion R * S * T) : Completion R := r.1.1.
Definition end_state {R S T : Type} (r : Completion R * S * T) : S := r.1.2.
Definition events {R S T : Type} (r : Completion R * S * T) : T := r.2.

(** ** JavaScript values, continued *)

(** A number that may be [NaN], as [parseInt] returns it.  Arithmetic
    is exact, as JavaScript's is while the values stay below 2^53. *)
Inductive Number : Type :=
| NaN
| Int (n : Z).

Definition num_add (a b : Number) : Number :=
  match a, b with
  | Int x, Int y => Int (x + y)
  | _, _ => NaN
  end.

Definition num_sub (a b : Number) : Number :=
  match a, b with
  | Int x, Int y => Int (x - y)
  | _, _ => NaN
  end.

(** [a < b]: false when either side is [NaN]. *)
Definition num_lt (a b : Number) : bool :=
  match a, b with
  | Int x, Int y => (x <? y)%Z
  | _, _ => false
  end.

(** A number in a response body; [NaN] is serialised as [null]. *)
Definition number_json (a : Number) : Json :=
  match a with
  | Int n => JVal (JNumber n)
  | NaN => JVal JNull
  end.

(** A number or [null] in a response body. *)
Definition nullable_json (n : option Z) : Json :=
  match n with
  | Some n => JVal (JNumber n)
  | None => JVal JNull
  end.

(** The value of a digit in a radix, for [parseInt]. *)
Definition digit_value (radix : Z) (c : ascii) : option Z :=
  let v := if is_digit c then Some (Z.of_nat (code c) - 48)%Z
           else if is_lower c then Some (Z.of_nat (code c) - 87)%Z
           else if is_upper c then Some (Z.of_nat (code c) - 55)%Z
           else None in
  match v with
  | Some d => if (d <? radix)%Z then Some d else None
  | None => None
  end.

(** The value of the longest prefix of digits, if there is a digit. *)
Fixpoint parse_digits (radix : Z) (s : string) (acc : option Z) : option Z :=
  match s with
  | EmptyString => acc
  | String c r =>
      match digit_value radix c with
      | Some d => parse_digits radix r (Some (match acc with
                                              | Some a => a * radix + d
                                              | None => d
                                              end)%Z)
      | None => acc
      end
  end.

(** [parseInt(s)] without a radix: leading white space, an optional
    sign, an optional [0x] prefix for radix 16, then digits. *)
Definition parseInt (s : string) : Number :=
  let s := trim_start s in
  let '(negative, s) :=
    match s with
    | String "-" r => (true, r)
    | String "+" r => (false, r)
    | _ => (false, s)
    end in
  let '(radix, s) :=
    match s with
    | String "0" (String "x" r) | String "0" (String "X" r) => (16%Z, r)
    | _ => (10%Z, s)
    end in
  match parse_digits radix s None with
  | Some n => Int (if negative then - n else n)
  | None => NaN
  end.

(** [!!j] *)
Definition json_truthy (j : Json) : bool :=
  match j with
  | JVal v => truthy v
  | JArr _ | JObj _ => true
  end.

(** [String(j)]: an object prints as [[object Object]], an array as
    its elements joined by commas, [null] and [undefined] elements as
    nothing. *)
Fixpoint json_to_string (j : Json) : string :=
  match j with
  | JVal v => js_to_string v
  | JObj _ => "[object Object]"
  | JArr items =>
      (fix join (l : list Json) : string :=
         match l with
         | [] => ""
         | x :: rest =>
             let shown := match x with
                          | JVal JNull | JVal JUndefined => ""
                          | _ => json_to_string x
                          end in
             match rest with
             | [] => shown
             | _ => shown ++ "," ++ join rest
             end
         end) items
  end.

(** [delete o.k] on a copy of an object. *)
Definition delete_key (k : string) (o : list (string * Json)) : list (string * Json) :=
  List.filter (fun kv => negb (fst kv =? k)) o.

(** [{ ...o, k: v }]: the property keeps its place if [o] has it, and
    is added at the end otherwise. *)
Fixpoint set_key (k : string) (v : Json) (o : list (string * Json))
  : list (string * Json) :=
  match o with
  | [] => [(k, v)]
  | (k', v') :: rest =>
      if k' =? k then (k, v) :: rest else (k', v') :: set_key k v rest
  end.

(** [o.k], [undefined] when the object has no such property. *)
Definition property (k : string) (o : list (string * Json)) : Json :=
  match lookup_field k o with
  | Some v => v
  | None => JVal JUndefined
  end.

(** ** [routes/fatherhood]: the administrative routes *)

Module Admin.

(** The answer of the list query: rows, error and the exact count. *)
Record ListResult : Type :=
  { list_data : option (list Json);
    list_error : option PgError;
    list_count : option Z }.

(** The answer of a count query ([head: true]): only the count is read. *)
Record CountResult : Type :=
  { count_value : option Z;
    count_error : option PgError }.

(** The calls of the administrative handlers: those of the handlers
    above ([Core]) and the queries on [fatherhood_signups] through the
    privileged client.  A row is kept as the handler gets it and hands
    it on. *)
Inductive AdminOp : Type -> Type :=
| Core {X : Type} (op : Op X) : AdminOp X
| SignupsSelectAll (range : option (Number * Number)) (status : option JsValue)
  : AdminOp (Outcome ListResult)
    (* .select('*', { count: 'exact' }).order('created_at', { ascending: false })
       [.range(from, to)] [.eq('status', status)] *)
| SignupsSelectById (id : string)
  : AdminOp (Outcome (PgResult Json))
    (* .select('*').eq('id', id).single() *)
| SignupsUpdate (values : list (string * Json)) (id : string)
  : AdminOp (Outcome (PgResult Json))
    (* .update(values).eq('id', id).select().single() *)
| SignupsInsertManual (row : list (string * Json))
  : AdminOp (Outcome (PgResult Json))
    (* .insert([row]).select().single() *)
| SignupsDelete (id : string)
  : AdminOp (Outcome (PgResult unit))
    (* .delete().eq('id', id) *)
| SignupsCount (since : option string)
  : AdminOp (Outcome CountResult)
    (* .select('*', { count: 'exact', head: true }) [.gte('created_at', since)] *)
| SignupsSelectStatus
  : AdminOp (Outcome (PgResult (list JsValue)))
    (* .select('status'): the status of every row *)
| DateDaysAgoIso (days : Z) : AdminOp string.
    (* d = new Date(); d.setDate(d.getDate() - days); d.toISOString() *)

Definition is_datastore_call {X : Type} (op : AdminOp X) : bool :=
  match op with
  | Core op => is_datastore_op op
  | DateDaysAgoIso _ => false
  | _ => true
  end.

Definition console_error (msg : string) (detail : option Thrown) : ProgOf AdminOp unit :=
  invoke (Core (ConsoleError msg detail)).

Definition console_log (msg : string) : ProgOf AdminOp unit :=
  invoke (Core (ConsoleLog msg)).

Definition not_configured : Response :=
  respond 503 [("error", jstr "Admin access not configured")].

Definition data_json (data : option Json) : Json :=
  match data with
  | Some j => j
  | None => JVal JNull
  end.

(** [const { status, limit, offset = '0' } = req.query]: the default
    applies when the parameter is absent. *)
Definition offset_or_default (offset : JsValue) : JsValue :=
  match offset with
  | JUndefined => JString "0"
  | _ => offset
  end.

Definition list_failed : Response :=
  error_response 500 "Failed to fetch signups" "Could not retrieve signup data".

(** [GET /api/fatherhood/signups], after the middleware *)
Definition list_signups (cfg : Config) (status limit offset : JsValue)
  : ProgOf AdminOp Response :=
  catching
    (if negb (supabaseAdmin cfg)
     then mret (respond 503 [("error", jstr "Admin access not configured");
                             ("message", jstr "SUPABASE_SERVICE_KEY is required for this endpoint")])
     else
       let offsetNum := parseInt (js_to_string (offset_or_default offset)) in
       let limitNum := parseInt (js_to_string limit) in
       let range := if truthy limit
                    then Some (offsetNum, num_sub (num_add offsetNum limitNum) (Int 1))
                    else None in
       let filter := if truthy status then Some status else None in
       listed ← awaiting (SignupsSelectAll range filter);
       match list_error listed with
       | Some error =>
           console_error "Fetch signups error:" (Some (ThrownPg error));;
           Raise (ThrownPg error)
       | None =>
           let data := match list_data listed with
                       | Some rows => JArr rows
                       | None => JVal JNull
                       end in
           let returned := match list_data listed with
                           | Some rows => Z.of_nat (length rows)
                           | None => 0%Z
                           end in
           let total := match list_count listed with
                        | Some n => n
                        | None => 0%Z
                        end in
           if truthy limit
           then mret (respond 200
                        [("success", jtrue);
                         ("data", data);
                         ("pagination",
                          JObj [("total", nullable_json (list_count listed));
                                ("limit", number_json limitNum);
                                ("offset", number_json offsetNum);
                                ("hasMore",
                                 JVal (JBool (num_lt (num_add offsetNum (Int returned))
                                                (Int total))))])])
           else mret (respond 200 [("success", jtrue); ("data", data)])
       end)
    (fun error =>
       console_error "Get signups error:" (Some error);;
       mret list_failed).

(** [GET /api/fatherhood/signups/:id], after the middleware *)
Definition get_signup (cfg : Config) (id : string) : ProgOf AdminOp Response :=
  catching
    (if negb (supabaseAdmin cfg)
     then mret not_configured
     else
       found ← awaiting (SignupsSelectById id);
       match pg_error found, pg_data found with
       | Some _, _ | None, None => mret (respond 404 [("error", jstr "Signup not found")])
       | None, Some data =>
           if json_truthy data
           then mret (respond 200 [("success", jtrue); ("data", data)])
           else mret (respond 404 [("error", jstr "Signup not found")])
       end)
    (fun error =>
       console_error "Get signup error:" (Some error);;
       mret (respond 500 [("error", jstr "Failed to fetch signup")])).

(** The accumulator of the reduction in the statistics: one more for
    the key [String(status)], counting from zero for a key the object
    does not have yet.  The keys are kept in the order in which they
    first occur; JavaScript lists keys that are array indices first, so
    the object is to be read by key. *)
Fixpoint count_one (key : string) (acc : list (string * Z)) : list (string * Z) :=
  match acc with
  | [] => [(key, 1%Z)]
  | (k, n) :: rest =>
      if k =? key then (k, (n + 1)%Z) :: rest else (k, n) :: count_one key rest
  end.

(** [statusData.reduce((acc, item) => { acc[item.status] = (acc[item.status] || 0) + 1;
    return acc }, {})] *)
Definition status_counts (statuses : list JsValue) : list (string * Z) :=
  fold_left (fun acc status => count_one (js_to_string status) acc) statuses [].

Definition counts_json (counts : list (string * Z)) : Json :=
  JObj (map (fun kn => (fst kn, JVal (JNumber (snd kn)))) counts).

(** [GET /api/fatherhood/stats], after the middleware.  Only the count
    or the rows of each answer are read, never its error. *)
Definition stats (cfg : Config) : ProgOf AdminOp Response :=
  catching
    (if negb (supabaseAdmin cfg)
     then mret not_configured
     else
       total ← awaiting (SignupsCount None);
       statusData ← awaiting SignupsSelectStatus;
       let statusCounts := match pg_data statusData with
                           | Some statuses => status_counts statuses
                           | None => []
                           end in
       weekAgo ← invoke (DateDaysAgoIso 7);
       thisWeek ← awaiting (SignupsCount (Some weekAgo));
       mret (respond 200
               [("success", jtrue);
                ("stats", JObj [("total", nullable_json (count_value total));
                                ("thisWeek", nullable_json (count_value thisWeek));
                                ("byStatus", counts_json statusCounts)])]))
    (fun error =>
       console_error "Stats error:" (Some error);;
       mret (respond 500 [("error", jstr "Failed to fetch stats")])).

(** The payload of the full update: the body without [id] and
    [created_at]. *)
Definition update_payload (body : list (string * Json)) : list (string * Json) :=
  delete_key "created_at" (delete_key "id" body).

(** [PUT /api/fatherhood/signups/:id], after the middleware.  (The log
    line is given without its leading pictogram.) *)
Definition update_participant (cfg : Config) (id : string) (body : list (string * Json))
  : ProgOf AdminOp Response :=
  catching
    (if negb (supabaseAdmin cfg)
     then mret not_configured
     else
       updated ← awaiting (SignupsUpdate (update_payload body) id);
       match pg_error updated with
       | Some error => Raise (ThrownPg error)
       | None =>
           match pg_data updated with
           | Some data =>
               if json_truthy data
               then
                 console_log ("Updated participant " ++ id);;
                 mret (respond 200 [("success", jtrue); ("data", data)])
               else mret (respond 404 [("error", jstr "Participant not found")])
           | None => mret (respond 404 [("error", jstr "Participant not found")])
           end
       end)
    (fun error =>
       console_error "Update participant error:" (Some error);;
       mret (respond 500 [("error", jstr "Failed to update participant")])).

(** The row of a manual entry: the body with [entry_source] defaulting
    to [manual]. *)
Definition manual_row (body : list (string * Json)) : list (string * Json) :=
  set_key "entry_source"
    (if json_truthy (property "entry_source" body)
     then property "entry_source" body
     else jstr "manual")
    body.

(** [error.message] in a [catch] clause. *)
Definition thrown_message (e : Thrown) : string :=
  match e with
  | ThrownError _ message => message
  | ThrownPg e => pg_message e
  end.

(** [data.name] in a template literal, for a row that is not [null]. *)
Definition shown_property (k : string) (data : Json) : string :=
  match data with
  | JObj fields => json_to_string (property k fields)
  | _ => "undefined"
  end.

(** [POST /api/fatherhood/signups], after the middleware.  (The log
    line is given without its leading pictogram.) *)
Definition create_participant (cfg : Config) (body : list (string * Json))
  : ProgOf AdminOp Response :=
  catching
    (if negb (supabaseAdmin cfg)
     then mret not_configured
     else
       inserted ← awaiting (SignupsInsertManual (manual_row body));
       match pg_error inserted with
       | Some error =>
           if pg_code error =? "23505"
           then mret (error_response 409 "Email already exists"
                        "A participant with this email already exists.")
           else Raise (ThrownPg error)
       | None =>
           match pg_data inserted with
           | None | Some (JVal JNull) =>
               Raise (ThrownError "TypeError"
                        "Cannot read properties of null (reading 'full_name')")
           | Some (JVal JUndefined) =>
               Raise (ThrownError "TypeError"
                        "Cannot read properties of undefined (reading 'full_name')")
           | Some data =>
               console_log ("Admin created participant: " ++ shown_property "full_name" data
                              ++ " (" ++ shown_property "email" data ++ ")");;
               mret (respond 201 [("success", jtrue); ("data", data)])
           end
       end)
    (fun error =>
       console_error "Create participant error:" (Some error);;
       mret (respond 500 [("error", jstr "Failed to create participant");
                          ("message", jstr (thrown_message error))])).

(** [DELETE /api/fatherhood/signups/:id], after the middleware.  (The
    log line is given without its leading pictogram.) *)
Definition delete_participant (cfg : Config) (id : string) : ProgOf AdminOp Response :=
  catching
    (if negb (supabaseAdmin cfg)
     then mret not_configured
     else
       deleted ← awaiting (SignupsDelete id);
       match pg_error deleted with
       | Some error => Raise (ThrownPg error)
       | None =>
           console_log ("Deleted participant " ++ id);;
           mret (respond 200 [("success", jtrue);
                              ("message", jstr "Participant deleted successfully")])
       end)
    (fun error =>
       console_error "Delete participant error:" (Some error);;
       mret (respond 500 [("error", jstr "Failed to delete participant")])).

End Admin.

(** ** Observing a run of an administrative handler *)

Definition admin_answers {A : Type}
  (sel : forall X : Type, Admin.AdminOp X -> X -> option A)
  (tr : list (EventOf Admin.AdminOp)) : list A :=
  flat_map (fun e => match e with
                     | Asked op x => match sel _ op x with
                                     | Some a => [a]
                                     | None => []
                                     end
                     end) tr.

(** The list queries: range, status filter and answer. *)
Definition list_queries
  : list (EventOf Admin.AdminOp)
    -> list (option (Number * Number) * option JsValue * Outcome Admin.ListResult) :=
  admin_answers (fun X op =>
    match op in Admin.AdminOp T return T -> option _ with
    | Admin.SignupsSelectAll range status => fun a => Some (range, status, a)
    | _ => fun _ => None
    end).

(** The lookups by id. *)
Definition id_lookups
  : list (EventOf Admin.AdminOp) -> list (string * Outcome (PgResult Json)) :=
  admin_answers (fun X op =>
    match op in Admin.AdminOp T return T -> option _ with
    | Admin.SignupsSelectById id => fun a => Some (id, a)
    | _ => fun _ => None
    end).

(** The full updates: values, id and answer. *)
Definition full_updates
  : list (EventOf Admin.AdminOp)
    -> list (list (string * Json) * string * Outcome (PgResult Json)) :=
  admin_answers (fun X op =>
    match op in Admin.AdminOp T return T -> option _ with
    | Admin.SignupsUpdate values id => fun a => Some (values, id, a)
    | _ => fun _ => None
    end).

(** The manual inserts: row and answer. *)
Definition manual_inserts
  : list (EventOf Admin.AdminOp) -> list (list (string * Json) * Outcome (PgResult Json)) :=
  admin_answers (fun X op =>
    match op in Admin.AdminOp T return T -> option _ with
    | Admin.SignupsInsertManual row => fun a => Some (row, a)
    | _ => fun _ => None
    end).

(** The deletes: id and answer. *)
Definition deletes
  : list (EventOf Admin.AdminOp) -> list (string * Outcome (PgResult unit)) :=
  admin_answers (fun X op =>
    match op in Admin.AdminOp T return T -> option _ with
    | Admin.SignupsDelete id => fun a => Some (id, a)
    | _ => fun _ => None
    end).

(** The count queries and the status query of the statistics. *)
Definition count_queries
  : list (EventOf Admin.AdminOp) -> list (option string * Outcome Admin.CountResult) :=
  admin_answers (fun X op =>
    match op in Admin.AdminOp T return T -> option _ with
    | Admin.SignupsCount since => fun a => Some (since, a)
    | _ => fun _ => None
    end).

Definition status_queries
  : list (EventOf Admin.AdminOp) -> list (Outcome (PgResult (list JsValue))) :=
  admin_answers (fun X op =>
    match op in Admin.AdminOp T return T -> option _ with
    | Admin.SignupsSelectStatus => fun a => Some a
    | _ => fun _ => None
    end).

Definition admin_datastore_calls (tr : list (EventOf Admin.AdminOp))
  : list (EventOf Admin.AdminOp) :=
  List.filter (fun e => match e with
                        | Asked op _ => Admin.is_datastore_call op
                        end) tr.

(** An offset or limit small enough for its arithmetic to be exact. *)
Definition small (n : Z) : bool := (Z.abs n <? 2 ^ 52)%Z.

(** How often a status occurs among the rows, as a key. *)
Definition occurrences (key : string) (statuses : list JsValue) : Z :=
  Z.of_nat (length (List.filter (fun status => js_to_string status =? key) statuses)).

(** The names an object inherits from [Object.prototype]; as a status
    they would not count from zero in the statistics. *)
Definition inherited_names : list string :=
  ["constructor"; "hasOwnProperty"; "isPrototypeOf"; "propertyIsEnumerable";
   "toLocaleString"; "toString"; "valueOf"; "__proto__";
   "__defineGetter__"; "__defineSetter__"; "__lookupGetter__"; "__lookupSetter__"].

Definition ordinary_statuses (statuses : list JsValue) : bool :=
  forallb (fun status => negb (existsb (String.eqb (js_to_string status)) inherited_names))
    statuses.

(** A scripted environment for the administrative handlers: the
    scenario answers the calls of the authentication flow, and one fixed
    answer is given per administrative query; the state counts the
    datastore calls. *)
Record AdminScenario : Type :=
  { core : Scenario;
    listed : Outcome Admin.ListResult;
    looked_up : Outcome (PgResult Json);
    updated : Outcome (PgResult Json);
    inserted : Outcome (PgResult Json);
    deleted : Outcome (PgResult unit);
    counted : Outcome Admin.CountResult;
    statuses : Outcome (PgResult (list JsValue));
    week_ago : string }.

Definition admin_answer (sc : AdminScenario) (X : Type) (op : Admin.AdminOp X) : X :=
  match op in Admin.AdminOp T return T with
  | Admin.Core op => scripted_answer (core sc) _ op
  | Admin.SignupsSelectAll _ _ => listed sc
  | Admin.SignupsSelectById _ => looked_up sc
  | Admin.SignupsUpdate _ _ => updated sc
  | Admin.SignupsInsertManual _ => inserted sc
  | Admin.SignupsDelete _ => deleted sc
  | Admin.SignupsCount _ => counted sc
  | Admin.SignupsSelectStatus => statuses sc
  | Admin.DateDaysAgoIso _ => week_ago sc
  end.

Definition admin_scripted (sc : AdminScenario) : EnvOf Admin.AdminOp :=
  {| state_of := nat;
     answer_of := fun X op calls =>
       (admin_answer sc X op,
        if Admin.is_datastore_call op then S calls else calls) |}.

Definition bob_row : Json :=
  JObj [("id", JVal (JNumber 3)); ("full_name", jstr "Bob");
        ("email", jstr "bob@example.org"); ("status", jstr "pending")].

Definition carl_row : Json :=
  JObj [("id", JVal (JNumber 4)); ("full_name", jstr "Carl");
        ("email", jstr "carl@example.org"); ("status", jstr "contacted")].

Definition office : AdminScenario :=
  {| core := everyday;
     listed := Resolved {| Admin.list_data := Some [carl_row; bob_row];
                           Admin.list_error := None;
                           Admin.list_count := Some 5%Z |};
     looked_up := Resolved {| pg_data := Some bob_row; pg_error := None |};
     updated := Resolved {| pg_data := Some bob_row; pg_error := None |};
     inserted := Resolved {| pg_data := Some bob_row; pg_error := None |};
     deleted := Resolved {| pg_data := None; pg_error := None |};
     counted := Resolved {| Admin.count_value := Some 5%Z; Admin.count_error := None |};
     statuses := Resolved {| pg_data := Some [JString "pending"; JString "contacted";
                                              JString "pending"; JNull; JString "pending"];
                             pg_error := None |};
     week_ago := "2024-12-25T00:00:00.000Z" |}.

(** The datastore is unreachable: every query reports an error. *)
Definition outage : AdminScenario :=
  {| core := everyday;
     listed := Resolved {| Admin.list_data := None;
                           Admin.list_error := Some {| pg_code := "57014";
                                                       pg_message := "statement timeout" |};
                           Admin.list_count := None |};
     looked_up := Resolved failed;
     updated := Resolved failed;
     inserted := Resolved failed;
     deleted := Resolved failed;
     counted := Resolved {| Admin.count_value := None;
                            Admin.count_error := Some {| pg_code := "57014";
                                                         pg_message := "statement timeout" |} |};
     statuses := Resolved failed;
     week_ago := "2024-12-25T00:00:00.000Z" |}.

(** The count recorded for a key in the accumulator of the statistics. *)
Fixpoint count_for (key : string) (acc : list (string * Z)) : option Z :=
  match acc with
  | [] => None
  | (k, n) :: rest => if k =? key then Some n else count_for key rest
  end.

(** ** [index] and [config/supabase]: the process environment *)

Module Server.

(** The variables of [process.env] read when the modules are loaded. *)
Record ProcessEnv : Type :=
  { NODE_ENV : option string;
    ALLOWED_ORIGINS : option string;
    CORS_DEBUG : option string;
    SUPABASE_URL : option string;
    SUPABASE_ANON_KEY : option string;
    SUPABASE_SERVICE_KEY : option string }.

(** A variable that is set and not empty, as [!v] tests it. *)
Definition present (v : option string) : bool :=
  match v with
  | Some s => negb (s =? "")
  | None => false
  end.

(** [v === s] for a variable. *)
Definition equals (v : option string) (s : string) : bool :=
  match v with
  | Some t => t =? s
  | None => false
  end.

(** [config/supabase]: loading the module throws when the URL or the
    restricted key is missing, and otherwise decides whether the
    privileged client exists.  (The clients themselves are taken to be
    created without fault; the console messages of the module are left
    out.) *)
Definition supabaseAdmin_of (env : ProcessEnv) : Completion bool :=
  if negb (present (SUPABASE_URL env)) || negb (present (SUPABASE_ANON_KEY env))
  then Threw (ThrownError "Error" "Missing Supabase environment variables")
  else Returned (present (SUPABASE_SERVICE_KEY env)).

(** The configuration the handlers see, given the signing secret. *)
Definition config_of (env : ProcessEnv) (secret : option string) : Completion Config :=
  match supabaseAdmin_of env with
  | Returned admin => Returned {| supabaseAdmin := admin; JWT_SECRET := secret |}
  | Threw e => Threw e
  end.

(** [allowedOrigins] of [index]: in production the variable split at
    commas and trimmed, or one default origin when it is not set;
    otherwise a development list that contains ['*']. *)
Definition allowedOrigins (env : ProcessEnv) : list string :=
  if equals (NODE_ENV env) "production"
  then match ALLOWED_ORIGINS env with
       | Some origins => map js_trim (split_on "," origins)
       | None => ["https://as12711.github.io"]
       end
  else ["http://localhost:3000"; "http://localhost:19006"; "http://localhost:8081";
        "http://127.0.0.1:5500"; "http://localhost:5500"; "*"].

Definition isDebugMode (env : ProcessEnv) : bool :=
  equals (CORS_DEBUG env) "true" || equals (NODE_ENV env) "development".

(** [allowedOrigins.includes(s)] *)
Definition listed (env : ProcessEnv) (s : string) : bool :=
  existsb (String.eqb s) (allowedOrigins env).

Definition debug_log (env : ProcessEnv) (msg : string) : Prog unit :=
  if isDebugMode env then perform (ConsoleLog msg) else mret tt.

(** The [origin] function given to [cors]: [true] stands for
    [callback(null, true)], [false] for [callback(new Error('Not allowed
    by CORS'))].  [None] is a request without an Origin header. *)
Definition cors_origin (env : ProcessEnv) (origin : option string) : Prog bool :=
  match origin with
  | None | Some EmptyString =>
      debug_log env "CORS: Allowing request with no origin header";;
      mret true
  | Some o =>
      if listed env "*" || listed env o
      then debug_log env ("CORS: Allowing origin: " ++ o);; mret true
      else debug_log env ("CORS: Blocking origin: " ++ o);; mret false
  end.

(** The headers set by the middleware that follows [cors]. *)
Definition safety_headers (env : ProcessEnv) (origin : option string)
  : list (string * string) :=
  match origin with
  | None | Some EmptyString => []
  | Some o =>
      if listed env "*" || listed env o
      then [("Access-Control-Allow-Origin", o);
            ("Access-Control-Allow-Credentials", "true")]
      else []
  end.

End Server.

(** [l.join(sep)] *)
Fixpoint join_with (sep : string) (l : list string) : string :=
  match l with
  | [] => ""
  | [x] => x
  | x :: rest => x ++ sep ++ join_with sep rest
  end.

(** An origin as one writes it in a list: no comma in it and no white
    space around it. *)
Definition plain_origin (o : string) : bool :=
  forallb (fun c => negb (Ascii.eqb c ",")) (chars o) && (js_trim o =? o).

Definition live : Server.ProcessEnv :=
  {| Server.NODE_ENV := Some "production";
     Server.ALLOWED_ORIGINS := Some "https://as12711.github.io, https://manupinc.org";
     Server.CORS_DEBUG := None;
     Server.SUPABASE_URL := Some "https://project.supabase.co";
     Server.SUPABASE_ANON_KEY := Some "anon";
     Server.SUPABASE_SERVICE_KEY := None |}.

Definition staging : Server.ProcessEnv :=
  {| Server.NODE_ENV := Some "staging";
     Server.ALLOWED_ORIGINS := Some "https://as12711.github.io";
     Server.CORS_DEBUG := Some "true";
     Server.SUPABASE_URL := Some "https://project.supabase.co";
     Server.SUPABASE_ANON_KEY := Some "anon";
     Server.SUPABASE_SERVICE_KEY := Some "service" |}.

(** * Properties *)

(** ** Symbolic execution of a run *)

Ltac split_answer x :=
  lazymatch type of x with
  | Outcome _ => let a := fresh "a" in destruct x as [a|?]; try split_answer a
  | PgResult _ => let d := fresh "data" in
                  let e := fresh "err" in
                  destruct x as [d e]; destruct d, e
  | bool => destruct x
  | unit => destruct x
  | _ => idtac
  end.

(** Use the facts at hand about a test or an answer. *)
Ltac use_facts H :=
  progress (repeat match goal with
                   | Hb : env_answer _ _ _ _ = _ |- _ => rewrite Hb in H
                   | Hb : _ = true |- _ => rewrite Hb in H
                   | Hb : _ = false |- _ => rewrite Hb in H
                   | Hb : truthy_secret _ = _ |- _ => rewrite Hb in H
                   end).

(** One step: ask the environment for the next answer and split on it,
    or decide the test the program is waiting for. *)
Ltac explore_step H :=
  cbn in H;
  first
    [ use_facts H
    | lazymatch type of H with
      | context [env_answer ?E ?X ?op ?s] =>
          let x := fresh "x" in
          let s' := fresh "s" in
          destruct (env_answer E X op s) as [x s'] eqn:?; split_answer x
      | context [if ?b then _ else _] => destruct b eqn:?
      | context [match truthy_secret ?cfg with _ => _ end] =>
          destruct (truthy_secret cfg) eqn:?
      end ].

Ltac explore H := repeat explore_step H; cbn in H.

(** Follow every path of a run recorded in [H : run E p s = (c, s', tr)]. *)
Ltac paths H :=
  explore H;
  lazymatch type of H with
  | (_, _, _) = (_, _, _) => injection H as <- <- <-; cbn in *
  | _ => idtac
  end.

Lemma run_bind {A B : Type} (E : Env) (p : Prog A) (f : A -> Prog B) (s : env_state E) :
  run E (bind p f) s =
  let '(c, s1, tr1) := run E p s in
  match c with
  | Returned a => let '(c2, s2, tr2) := run E (f a) s1 in (c2, s2, (tr1 ++ tr2)%list)
  | Threw e => (Threw e, s1, tr1)
  end.
Proof.
  revert s. induction p as [a | e | X op k IH]; intros s; cbn.
  - destruct (run E (f a) s) as [[c2 s2] tr2]. reflexivity.
  - reflexivity.
  - destruct (env_answer E X op s) as [x s1].
    rewrite IH.
    destruct (run E (k x) s1) as [[c s2] tr]. destruct c as [a | e].
    + destruct (run E (f a) s2) as [[c2 s3] tr2]. reflexivity.
    + reflexivity.
Qed.

(** A [catch] clause that cannot throw makes the whole [try] return. *)
Lemma run_try_catch_returns {R : Type} (E : Env) (p : Prog R) (h : Thrown -> Prog R) :
  (forall e s, exists r, completion (run E (h e) s) = Returned r) ->
  forall s, exists r, completion (run E (try_catch p h) s) = Returned r.
Proof.
  intros Hh. induction p as [r | e | X op k IH]; intros s; cbn.
  - exists r. reflexivity.
  - apply Hh.
  - destruct (env_answer E X op s) as [x s1].
    destruct (IH x s1) as [r Hr].
    destruct (run E (try_catch (k x) h) s1) as [[c s2] tr].
    exists r. exact Hr.
Qed.

Example everyday_login :
  run (scripted everyday) (Auth.login production (credentials "Alice@Example.org " "Secret123")) 0
  = (Returned (Auth.login_successful "header.payload.signature" alice), 1,
     [Ev (AdminUsersSelectByEmail "alice@example.org") (Resolved (one_row alice));
      Ev (BcryptCompare (JString "Secret123") (JString "$2b$12$hash")) (Resolved true);
      Ev (JwtSign (Auth.token_payload alice) "0123456789abcdef0123456789abcdef" "24h")
         (Resolved "header.payload.signature");
      Ev DateNowIso "2025-01-01T00:00:00.000Z";
      Ev DateNowIso "2025-01-01T00:00:00.000Z";
      Ev (AdminUsersUpdate [("last_login_at", JString "2025-01-01T00:00:00.000Z");
                            ("last_activity_at", JString "2025-01-01T00:00:00.000Z");
                            ("first_login", JBool false)] (JNumber 7))
         (Resolved updated_ok)]).
Proof. reflexivity. Qed.

Example everyday_setup_password :
  completion (run (scripted everyday)
                (Auth.setup_password production (credentials "alice@example.org" "Secret123")) 0)
  = Returned (Auth.password_set "header.payload.signature" alice)
  /\ final_state (run (scripted everyday)
                    (Auth.setup_password production (credentials "alice@example.org" "Secret123")) 0)
     = 2.
Proof. split; reflexivity. Qed.

Example login_without_body :
  run (scripted everyday)
    (Auth.login production {| Auth.email := JUndefined; Auth.password := JUndefined |}) 0
  = (Returned Auth.validation_failed, 0, []).
Proof. reflexivity. Qed.

Example login_numeric_email :
  completion (run (scripted everyday)
                (Auth.login production {| Auth.email := JNumber 5; Auth.password := JString "x" |}) 0)
  = Returned Auth.login_error.
Proof. reflexivity. Qed.

(** ** Login and password setup *)

Ltac run_cases H :=
  match goal with
  | |- context [run ?E ?p ?s] =>
      destruct (run E p s) as [[? ?] ?] eqn:H
  end.

(** C1. Enumeration resistance of login.  A login request for an email
    under which no administrator record exists, and a login request for
    an administrator who exists, is active and has a password hash but
    whose password does not match, receive the same response: status
    401 with body [{ error: 'Invalid credentials', message: 'Invalid
    email or password' }]. *)
Theorem login_enumeration_resistance
  (E1 E2 : Env) (s1 s1' : env_state E1) (s2 s2' s2'' : env_state E2)
  (cfg : Config) (body1 body2 : Auth.Body) (e1 e2 : string)
  (absent : PgResult AdminUser) (user : AdminUser) :
  supabaseAdmin cfg = true ->
  Auth.email body1 = JString e1 -> truthy (JString e1) = true ->
  truthy (Auth.password body1) = true ->
  Auth.email body2 = JString e2 -> truthy (JString e2) = true ->
  truthy (Auth.password body2) = true ->
  env_answer E1 _ (AdminUsersSelectByEmail (js_toLowerCase (js_trim e1))) s1
    = (Resolved absent, s1') ->
  pg_data absent = None ->
  env_answer E2 _ (AdminUsersSelectByEmail (js_toLowerCase (js_trim e2))) s2
    = (Resolved {| pg_data := Some user; pg_error := None |}, s2') ->
  truthy (is_active user) = true ->
  truthy (password_hash user) = true ->
  env_answer E2 _ (BcryptCompare (Auth.password body2) (password_hash user)) s2'
    = (Resolved false, s2'') ->
  completion (run E1 (Auth.login cfg body1) s1)
    = Returned (error_response 401 "Invalid credentials" "Invalid email or password")
  /\ completion (run E2 (Auth.login cfg body2) s2)
     = Returned (error_response 401 "Invalid credentials" "Invalid email or password").
Proof.
  intros Hcfg He1 Ht1 Hpw1 He2 Ht2 Hpw2 Habsent Hnone Hfound Hactive Hhash Hcompare.
  destruct body1 as [em1 pw1], body2 as [em2 pw2]; cbn in *; subst em1 em2.
  split.
  - run_cases Hrun. unfold Auth.login in Hrun.
    destruct absent as [d err]; cbn in Hnone; subst d.
    paths Hrun; reflexivity.
  - run_cases Hrun. unfold Auth.login in Hrun.
    paths Hrun; reflexivity.
Qed.

Lemma login_enumeration_resistance_witness :
  completion (run (scripted stranger)
                (Auth.login production (credentials "mallory@example.org" "Guess1234")) 0)
    = Returned (error_response 401 "Invalid credentials" "Invalid email or password")
  /\ completion (run (scripted wrong_password)
                   (Auth.login production (credentials "alice@example.org" "Guess1234")) 0)
     = Returned (error_response 401 "Invalid credentials" "Invalid email or password").
Proof.
  apply (login_enumeration_resistance (scripted stranger) (scripted wrong_password)
           0 0 0 0 0 production
           (credentials "mallory@example.org" "Guess1234")
           (credentials "alice@example.org" "Guess1234")
           "mallory@example.org" "alice@example.org" no_rows alice);
    reflexivity.
Defined.

(** C2, as stated, fails for an administrator without a password hash
    who is also disabled: the active flag is checked first, so login
    answers 403 [Account disabled], a body without
    [requiresPasswordSetup]. *)
Lemma login_password_not_set_counterexample :
  password_hash alice_disabled_without_password = JNull
  /\ completion (run (scripted (with_lookup (Resolved (one_row alice_disabled_without_password))
                                  everyday))
                   (Auth.login production (credentials "alice@example.org" "Secret123")) 0)
     = Returned (error_response 403 "Account disabled"
                   "Your account has been disabled. Please contact an administrator.")
  /\ json_field "requiresPasswordSetup"
       (json_body (error_response 403 "Account disabled"
                     "Your account has been disabled. Please contact an administrator."))
     = None.
Proof. repeat split. Qed.

(** C2 (amended). For every administrator record that is active and has
    no password hash (null, or any falsy value), login answers 403
    [Password not set] with [requiresPasswordSetup: true] and the email
    and name of the record.  For every record without a password hash,
    active or not, the response carries no [token] and no token is
    signed. *)
Theorem login_password_not_set
  (E : Env) (s s' : env_state E) (cfg : Config) (body : Auth.Body) (e : string)
  (user : AdminUser) :
  supabaseAdmin cfg = true ->
  Auth.email body = JString e -> truthy (JString e) = true ->
  truthy (Auth.password body) = true ->
  env_answer E _ (AdminUsersSelectByEmail (js_toLowerCase (js_trim e))) s
    = (Resolved {| pg_data := Some user; pg_error := None |}, s') ->
  truthy (password_hash user) = false ->
  (truthy (is_active user) = true ->
   completion (run E (Auth.login cfg body) s)
   = Returned (respond 403 [("error", jstr "Password not set");
                            ("message", jstr "Please set your password first");
                            ("requiresPasswordSetup", jtrue);
                            ("email", JVal (user_email user));
                            ("name", JVal (user_name user))]))
  /\ (exists response,
        completion (run E (Auth.login cfg body) s) = Returned response
        /\ json_field "token" (json_body response) = None)
  /\ signatures (trace (run E (Auth.login cfg body) s)) = [].
Proof.
  intros Hcfg He Ht Hpw Hfound Hhash.
  destruct body as [em pw]; cbn in *; subst em.
  run_cases Hrun. unfold Auth.login in Hrun.
  paths Hrun.
  - split; [intros Hactive; rewrite Hactive in *; discriminate |].
    split; [eexists; split; reflexivity | reflexivity].
  - split; [reflexivity |].
    split; [eexists; split; reflexivity | reflexivity].
Qed.

Lemma login_password_not_set_witness :
  completion (run (scripted (with_lookup (Resolved (one_row alice_without_password)) everyday))
                (Auth.login production (credentials "alice@example.org" "Secret123")) 0)
  = Returned (respond 403 [("error", jstr "Password not set");
                           ("message", jstr "Please set your password first");
                           ("requiresPasswordSetup", jtrue);
                           ("email", jstr "alice@example.org");
                           ("name", jstr "Alice")]).
Proof.
  apply (login_password_not_set
           (scripted (with_lookup (Resolved (one_row alice_without_password)) everyday))
           0 0 production (credentials "alice@example.org" "Secret123")
           "alice@example.org" alice_without_password);
    reflexivity.
Defined.

(** C3, as stated, fails for password setup: the strength pattern is
    tested before the account is looked up, so a disabled administrator
    who submits the password [alllower1] is answered 400 [Password
    requirements not met], and the datastore is not consulted. *)
Lemma disabled_account_counterexample :
  is_active alice_disabled = JBool false
  /\ run (scripted (with_lookup (Resolved (one_row alice_disabled)) everyday))
       (Auth.setup_password production (credentials "alice@example.org" "alllower1")) 0
     = (Returned (error_response 400 "Password requirements not met"
                    "Password must be at least 8 characters with at least one uppercase letter, one lowercase letter, and one number"),
        0, []).
Proof. split; reflexivity. Qed.

(** C3 (amended). For every administrator record whose active flag is
    false (or falsy), login answers 403 [Account disabled] whatever
    non-empty password is supplied, and password setup answers 403
    [Account disabled] for every supplied password that passes the
    strength pattern. *)
Theorem disabled_account_rejected
  (E : Env) (s s' : env_state E) (cfg : Config) (body : Auth.Body) (e : string)
  (user : AdminUser) :
  supabaseAdmin cfg = true ->
  Auth.email body = JString e -> truthy (JString e) = true ->
  truthy (Auth.password body) = true ->
  env_answer E _ (AdminUsersSelectByEmail (js_toLowerCase (js_trim e))) s
    = (Resolved {| pg_data := Some user; pg_error := None |}, s') ->
  truthy (is_active user) = false ->
  completion (run E (Auth.login cfg body) s)
    = Returned (error_response 403 "Account disabled"
                  "Your account has been disabled. Please contact an administrator.")
  /\ (passwordRegex_test (js_to_string (Auth.password body)) = true ->
      completion (run E (Auth.setup_password cfg body) s)
      = Returned (error_response 403 "Account disabled"
                    "Your account has been disabled. Please contact an administrator.")).
Proof.
  intros Hcfg He Ht Hpw Hfound Hactive.
  destruct body as [em pw]; cbn in *; subst em.
  split; [| intros Hregex];
    run_cases Hrun; [unfold Auth.login in Hrun | unfold Auth.setup_password in Hrun];
    paths Hrun; reflexivity.
Qed.

Lemma disabled_account_rejected_witness :
  completion (run (scripted (with_lookup (Resolved (one_row alice_disabled)) everyday))
                (Auth.login production (credentials "alice@example.org" "Secret123")) 0)
    = Returned Auth.account_disabled
  /\ completion (run (scripted (with_lookup (Resolved (one_row alice_disabled)) everyday))
                   (Auth.setup_password production (credentials "alice@example.org" "Secret123")) 0)
     = Returned Auth.account_disabled.
Proof.
  destruct (disabled_account_rejected
              (scripted (with_lookup (Resolved (one_row alice_disabled)) everyday))
              0 0 production (credentials "alice@example.org" "Secret123")
              "alice@example.org" alice_disabled) as [Hlogin Hsetup];
    try reflexivity.
  split; [exact Hlogin | apply Hsetup; reflexivity].
Defined.

(** C5, as stated, fails when the update fails by throwing: the update
    is awaited inside the [try] block before the response is sent, so
    the [catch] clause answers 500 [Server error] although the password
    was verified and the token signed. *)
Lemma login_update_best_effort_counterexample :
  signatures (trace (run (scripted (with_admin_update
                                      (Rejected (ThrownError "Error" "socket hang up"))
                                      everyday))
                       (Auth.login production (credentials "alice@example.org" "Secret123")) 0))
    = [Resolved "header.payload.signature"]
  /\ completion (run (scripted (with_admin_update
                                  (Rejected (ThrownError "Error" "socket hang up"))
                                  everyday))
                   (Auth.login production (credentials "alice@example.org" "Secret123")) 0)
     = Returned (error_response 500 "Server error" "An unexpected error occurred during login").
Proof. split; reflexivity. Qed.

(** C5 (amended). The timestamp update of a login is best-effort with
    respect to the result the datastore client reports: whenever the
    update completes, with an error in its result or without, the login
    answers success (200) with the token that was signed and the
    identity of the administrator. *)
Theorem login_update_best_effort
  (E : Env) (s : env_state E) (cfg : Config) (body : Auth.Body)
  (values : Fields) (result : PgResult unit) :
  In (values, Resolved result) (admin_updates (trace (run E (Auth.login cfg body) s))) ->
  exists (token : string) (user : AdminUser),
    signatures (trace (run E (Auth.login cfg body) s)) = [Resolved token]
    /\ completion (run E (Auth.login cfg body) s)
       = Returned (respond 200 [("success", jtrue);
                                ("message", jstr "Login successful");
                                ("token", jstr token);
                                ("user", JObj [("id", JVal (user_id user));
                                               ("email", JVal (user_email user));
                                               ("name", JVal (user_name user));
                                               ("firstLogin", JVal (first_login user))])]).
Proof.
  run_cases Hrun. unfold Auth.login in Hrun. destruct body as [em pw].
  unfold Auth.email_pattern, string_method in Hrun.
  destruct em; paths Hrun; intros Hin;
    repeat (destruct Hin as [Hin | Hin]; [try discriminate Hin |]);
    try contradiction;
    eexists _, _; split; reflexivity.
Qed.

Lemma login_update_best_effort_witness :
  exists token user,
    signatures (trace (run (scripted (with_admin_update (Resolved failed) everyday))
                         (Auth.login production (credentials "alice@example.org" "Secret123")) 0))
      = [Resolved token]
    /\ completion (run (scripted (with_admin_update (Resolved failed) everyday))
                     (Auth.login production (credentials "alice@example.org" "Secret123")) 0)
       = Returned (respond 200 [("success", jtrue);
                                ("message", jstr "Login successful");
                                ("token", jstr token);
                                ("user", JObj [("id", JVal (user_id user));
                                               ("email", JVal (user_email user));
                                               ("name", JVal (user_name user));
                                               ("firstLogin", JVal (first_login user))])]).
Proof.
  apply (login_update_best_effort
           (scripted (with_admin_update (Resolved failed) everyday)) 0 production
           (credentials "alice@example.org" "Secret123")
           [("last_login_at", JString "2025-01-01T00:00:00.000Z");
            ("last_activity_at", JString "2025-01-01T00:00:00.000Z");
            ("first_login", JBool false)]
           failed).
  left. reflexivity.
Defined.

Lemma dotstar_then_exists (cls : ascii -> bool) (s : string) :
  dotstar_then cls s = true -> existsb cls (chars s) = true.
Proof.
  induction s as [| c r IH]; cbn; [discriminate |].
  destruct (cls c); cbn; [reflexivity |].
  intros H. apply andb_prop in H. apply IH, H.
Qed.

(** The pattern accepts only passwords that satisfy the strength rule. *)
Lemma passwordRegex_strength (s : string) :
  passwordRegex_test s = true -> strength_rule s = true.
Proof.
  unfold passwordRegex_test, dots_to_end, strength_rule. intros H.
  apply andb_prop in H as [H Hdots].
  apply andb_prop in H as [H Hdigit].
  apply andb_prop in H as [Hlower Hupper].
  apply andb_prop in Hdots as [Hlength _].
  rewrite Hlength.
  rewrite (dotstar_then_exists _ _ Hupper), (dotstar_then_exists _ _ Hlower),
    (dotstar_then_exists _ _ Hdigit).
  reflexivity.
Qed.

(** The converse fails: a line terminator inside an otherwise strong
    password makes the pattern reject it. *)
Example passwordRegex_line_terminator :
  strength_rule (String "A" (String "b" (String "1" (String (ascii_of_nat 10) "cdefgh")))) = true
  /\ passwordRegex_test
       (String "A" (String "b" (String "1" (String (ascii_of_nat 10) "cdefgh")))) = false.
Proof. split; reflexivity. Qed.

(** C6. A password-setup request whose password fails the strength rule
    (minimum 8 characters, an uppercase letter, a lowercase letter and a
    digit) is answered 400 without any call at all: in every
    environment the run makes no datastore read or write and leaves
    the state as it was. *)
Theorem weak_password_rejected (cfg : Config) (body : Auth.Body) :
  strength_rule (js_to_string (Auth.password body)) = false ->
  exists response : Response,
    status_code response = 400%Z
    /\ Auth.setup_password cfg body = Ret response
    /\ forall (E : Env) (s : env_state E),
         run E (Auth.setup_password cfg body) s = (Returned response, s, []).
Proof.
  intros Hweak.
  assert (Hregex : passwordRegex_test (js_to_string (Auth.password body)) = false).
  { destruct (passwordRegex_test _) eqn:Hp; [| reflexivity].
    apply passwordRegex_strength in Hp. congruence. }
  unfold Auth.setup_password. rewrite Hregex.
  destruct (negb (truthy (Auth.email body)) || negb (truthy (Auth.password body)));
    cbn; eexists; (split; [| split; [reflexivity | intros E s; reflexivity]]);
    reflexivity.
Qed.

Lemma weak_password_rejected_witness :
  exists response : Response,
    status_code response = 400%Z
    /\ Auth.setup_password production (credentials "alice@example.org" "alllower1")
       = Ret response
    /\ forall (E : Env) (s : env_state E),
         run E (Auth.setup_password production (credentials "alice@example.org" "alllower1")) s
         = (Returned response, s, []).
Proof.
  apply (weak_password_rejected production (credentials "alice@example.org" "alllower1")).
  reflexivity.
Defined.

(** ** Activity updates *)

Lemma touch_activity_run (E : Env) (s : env_state E) (cfg : Config) (user : ReqUser) :
  forall (done : Response) (h : Thrown -> Prog Response),
    (forall e s1, completion (run E (h e) s1) = Returned done) ->
    completion (run E (try_catch (bind (Auth.touch_activity cfg user) (fun _ => Ret done)) h) s)
    = Returned done.
Proof.
  intros done h Hh. unfold Auth.touch_activity.
  run_cases Hrun.
  destruct (supabaseAdmin cfg && truthy (claim_id user));
    explore Hrun;
    try match type of Hrun with
        | context [run E (h ?e) ?s1] =>
            specialize (Hh e s1); destruct (run E (h e) s1) as [[? ?] ?]
        end;
    injection Hrun as <- <- <-; first [reflexivity | exact Hh].
Qed.

Lemma logout_succeeds (E : Env) (s : env_state E) (cfg : Config) (user : ReqUser) :
  completion (run E (Auth.logout cfg user) s) = Returned Auth.logged_out.
Proof.
  unfold Auth.logout. apply touch_activity_run. intros e s1. cbn.
  destruct (env_answer E _ _ s1) as [[] ?]. reflexivity.
Qed.

Lemma update_activity_succeeds (E : Env) (s : env_state E) (cfg : Config) (user : ReqUser) :
  completion (run E (Auth.update_activity cfg user) s) = Returned Auth.activity_updated.
Proof.
  unfold Auth.update_activity. apply touch_activity_run. intros e s1. cbn.
  destruct (env_answer E _ _ s1) as [[] ?]. reflexivity.
Qed.

Lemma protected_authenticated (E : Env) (s : env_state E) (cfg : Config)
  (authHeader : option string) (handler : ReqUser -> Prog Response) (user : ReqUser) :
  completion (run E (Middleware.authenticateToken cfg authHeader) s) = Returned (inr user) ->
  exists s1, completion (run E (Middleware.protected cfg authHeader handler) s)
             = completion (run E (handler user) s1).
Proof.
  intros Hauth. unfold Middleware.protected, mbind, prog_bind. rewrite run_bind.
  destruct (run E (Middleware.authenticateToken cfg authHeader) s) as [[c s1] tr1].
  cbn in Hauth. subst c. exists s1.
  destruct (run E (handler user) s1) as [[c2 s2] tr2]. reflexivity.
Qed.

(** C9. Every authenticated logout request is answered [{ success:
    true, message: 'Logged out successfully' }] and every authenticated
    update-activity request [{ success: true }], whatever happens to the
    update of the last-activity timestamp: whether it succeeds, reports
    an error, throws, or is skipped because the privileged client is
    absent.  The response does not depend on the outcome. *)
Theorem activity_update_failure_invisible
  (E : Env) (s : env_state E) (cfg : Config) (authHeader : option string)
  (user : ReqUser) :
  completion (run E (Middleware.authenticateToken cfg authHeader) s) = Returned (inr user) ->
  completion (run E (Middleware.protected cfg authHeader (Auth.logout cfg)) s)
    = Returned (respond 200 [("success", jtrue);
                             ("message", jstr "Logged out successfully")])
  /\ completion (run E (Middleware.protected cfg authHeader (Auth.update_activity cfg)) s)
     = Returned (respond 200 [("success", jtrue)]).
Proof.
  intros Hauth. split.
  - destruct (protected_authenticated E s cfg authHeader (Auth.logout cfg) user Hauth)
      as [s1 ->].
    apply logout_succeeds.
  - destruct (protected_authenticated E s cfg authHeader (Auth.update_activity cfg) user Hauth)
      as [s1 ->].
    apply update_activity_succeeds.
Qed.

Lemma activity_update_failure_invisible_witness :
  completion (run (scripted (with_admin_update
                               (Rejected (ThrownError "Error" "socket hang up")) everyday))
                (Middleware.protected production (Some "Bearer header.payload.signature")
                   (Auth.logout production)) 0)
    = Returned (respond 200 [("success", jtrue);
                             ("message", jstr "Logged out successfully")])
  /\ completion (run (scripted (with_admin_update
                                  (Rejected (ThrownError "Error" "socket hang up")) everyday))
                   (Middleware.protected production (Some "Bearer header.payload.signature")
                      (Auth.update_activity production)) 0)
     = Returned (respond 200 [("success", jtrue)]).
Proof.
  apply (activity_update_failure_invisible
           (scripted (with_admin_update
                        (Rejected (ThrownError "Error" "socket hang up")) everyday))
           0 production (Some "Bearer header.payload.signature") alice_token).
  reflexivity.
Defined.

Example logout_when_update_throws :
  run (scripted (with_admin_update (Rejected (ThrownError "Error" "socket hang up")) everyday))
    (Auth.logout production alice_token) 0
  = (Returned Auth.logged_out, 1,
     [Ev DateNowIso "2025-01-01T00:00:00.000Z";
      Ev (AdminUsersUpdate [("last_activity_at", JString "2025-01-01T00:00:00.000Z")]
            (JNumber 7))
         (Rejected (ThrownError "Error" "socket hang up"));
      Ev (ConsoleError "Logout error:" (Some (ThrownError "Error" "socket hang up"))) tt]).
Proof. reflexivity. Qed.

Example logout_without_privileged_client :
  run (scripted everyday)
    (Auth.logout {| supabaseAdmin := false; JWT_SECRET := JWT_SECRET production |}
       alice_token) 0
  = (Returned Auth.logged_out, 0, []).
Proof. reflexivity. Qed.

(** ** The authentication middleware *)

Lemma split_on_no_sep (sep : ascii) (s : string) :
  forallb (fun c => negb (Ascii.eqb c sep)) (chars s) = true ->
  split_on sep s = [s].
Proof.
  induction s as [| c r IH]; [reflexivity |].
  cbn [chars forallb split_on]. intros H. apply andb_prop in H as [Hc Hr].
  apply negb_true_iff in Hc. rewrite Hc, (IH Hr). reflexivity.
Qed.

Lemma split_on_first (sep : ascii) (s rest : string) :
  forallb (fun c => negb (Ascii.eqb c sep)) (chars s) = true ->
  split_on sep (s ++ String sep rest) = s :: split_on sep rest.
Proof.
  induction s as [| c r IH].
  - intros _. change (split_on sep (String sep rest) = "" :: split_on sep rest).
    cbn [split_on]. rewrite Ascii.eqb_refl. reflexivity.
  - cbn [chars forallb]. intros H. apply andb_prop in H as [Hc Hr].
    apply negb_true_iff in Hc.
    change (split_on sep (String c (r ++ String sep rest))
            = String c r :: split_on sep rest).
    cbn [split_on]. rewrite Hc, (IH Hr). reflexivity.
Qed.

(** The token is the second component of [split(' ')], when there is
    one and it is not empty. *)
Lemma header_token_second (h : string) :
  Middleware.header_token (Some h)
  = match nth_error (split_on " " h) 1 with
    | Some token => if token =? "" then None else Some token
    | None => None
    end.
Proof. destruct h; reflexivity. Qed.

(** C10. The middleware takes the second space-separated component of
    the Authorization header as the token and never looks at the first:
    a header [scheme token] has [token] verified as a bearer token
    whatever the scheme word is (for instance [Basic]), and a header
    without a second component, such as a bare token, is answered 401
    [No authentication token provided], as is a request without the
    header. *)
Theorem authorization_scheme_unchecked (cfg : Config) :
  (forall h : string,
     Middleware.authenticateToken cfg (Some h)
     = match nth_error (split_on " " h) 1 with
       | Some token =>
           if token =? ""
           then Ret (inl (error_response 401 "Unauthorized" "No authentication token provided"))
           else Middleware.verify_token cfg token
       | None => Ret (inl (error_response 401 "Unauthorized" "No authentication token provided"))
       end)
  /\ (forall scheme token : string,
        no_space scheme = true -> no_space token = true -> negb (token =? "") = true ->
        Middleware.authenticateToken cfg (Some (scheme ++ " " ++ token))
        = Middleware.verify_token cfg token)
  /\ (forall h : string,
        no_space h = true ->
        Middleware.authenticateToken cfg (Some h)
        = Ret (inl (error_response 401 "Unauthorized" "No authentication token provided")))
  /\ Middleware.authenticateToken cfg None
     = Ret (inl (error_response 401 "Unauthorized" "No authentication token provided")).
Proof.
  assert (Hsecond : forall h : string,
             Middleware.authenticateToken cfg (Some h)
             = match nth_error (split_on " " h) 1 with
               | Some token =>
                   if token =? "" then Ret (inl Middleware.no_token)
                   else Middleware.verify_token cfg token
               | None => Ret (inl Middleware.no_token)
               end).
  { intros h. unfold Middleware.authenticateToken. rewrite header_token_second.
    destruct (nth_error (split_on " " h) 1) as [token |]; [| reflexivity].
    destruct (token =? ""); reflexivity. }
  split; [exact Hsecond |].
  split; [| split; [| reflexivity]].
  - intros scheme token Hscheme Htoken Hnonempty.
    rewrite Hsecond. change (scheme ++ " " ++ token) with (scheme ++ String " " token).
    rewrite (split_on_first " " scheme token Hscheme), (split_on_no_sep " " token Htoken).
    cbn. apply negb_true_iff in Hnonempty. rewrite Hnonempty. reflexivity.
  - intros h Hh. rewrite Hsecond, (split_on_no_sep " " h Hh). reflexivity.
Qed.

Lemma authorization_scheme_unchecked_witness :
  Middleware.authenticateToken production (Some "Basic header.payload.signature")
    = Middleware.verify_token production "header.payload.signature"
  /\ Middleware.authenticateToken production (Some "header.payload.signature")
     = Ret (inl (error_response 401 "Unauthorized" "No authentication token provided")).
Proof.
  destruct (authorization_scheme_unchecked production) as (_ & Hscheme & Hbare & _).
  split.
  - apply (Hscheme "Basic" "header.payload.signature"); reflexivity.
  - apply (Hbare "header.payload.signature"). reflexivity.
Defined.

Example basic_scheme_is_verified :
  run (scripted everyday)
    (Middleware.authenticateToken production (Some "Basic header.payload.signature")) 0
  = (Returned (inr alice_token), 0,
     [Ev (JwtVerify "header.payload.signature" "0123456789abcdef0123456789abcdef")
         (Resolved alice_token)]).
Proof. reflexivity. Qed.

(** Components are those of [split(' ')]: two spaces after the scheme
    leave an empty second component, which counts as no token. *)
Example two_spaces_after_scheme :
  Middleware.authenticateToken production (Some "Bearer  header.payload.signature")
  = Ret (inl Middleware.no_token).
Proof. reflexivity. Qed.

Lemma authenticateToken_no_datastore
  (E : Env) (s : env_state E) (cfg : Config) (authHeader : option string) :
  datastore_calls (trace (run E (Middleware.authenticateToken cfg authHeader) s)) = [].
Proof.
  run_cases Hrun. unfold Middleware.authenticateToken in Hrun.
  destruct (Middleware.header_token authHeader) as [token |].
  - unfold Middleware.verify_token in Hrun.
    paths Hrun; try reflexivity;
      repeat match type of Hrun with
             | context [if ?b then _ else _] => destruct b
             end;
      paths Hrun; reflexivity.
  - paths Hrun. reflexivity.
Qed.

Lemma datastore_calls_app (tr1 tr2 : list Event) :
  datastore_calls (tr1 ++ tr2) = (datastore_calls tr1 ++ datastore_calls tr2)%list.
Proof. apply List.filter_app. Qed.

(** ** Signup records *)

(** C7. A status update whose status is not one of pending, contacted,
    enrolled, inactive, completed is answered 400 with the valid
    statuses in the body, and the signup record is left unchanged: the
    handler makes no call at all, so in every environment the state
    after the run is the state before it, and the whole protected route
    makes no datastore call. *)
Theorem invalid_status_rejected (cfg : Config) (id : string) (status : JsValue) :
  supabaseAdmin cfg = true ->
  includes ["pending"; "contacted"; "enrolled"; "inactive"; "completed"] status = false ->
  Fatherhood.update_status cfg id status
    = Ret (respond 400 [("error", jstr "Invalid status");
                        ("validStatuses", JArr [jstr "pending"; jstr "contacted";
                                                jstr "enrolled"; jstr "inactive";
                                                jstr "completed"])])
  /\ (forall (E : Env) (s : env_state E),
        run E (Fatherhood.update_status cfg id status) s
        = (Returned (respond 400 [("error", jstr "Invalid status");
                                  ("validStatuses", JArr [jstr "pending"; jstr "contacted";
                                                          jstr "enrolled"; jstr "inactive";
                                                          jstr "completed"])]),
           s, []))
  /\ (forall (E : Env) (s : env_state E) (authHeader : option string),
        datastore_calls
          (trace (run E (Middleware.protected cfg authHeader
                           (fun _ => Fatherhood.update_status cfg id status)) s))
        = []).
Proof.
  intros Hcfg Hstatus.
  assert (Hprog : Fatherhood.update_status cfg id status = Ret Fatherhood.invalid_status).
  { unfold Fatherhood.update_status, Fatherhood.validStatuses.
    rewrite Hcfg, Hstatus. reflexivity. }
  split; [exact Hprog |].
  split; [intros E s; rewrite Hprog; reflexivity |].
  intros E s authHeader.
  unfold Middleware.protected, mbind, prog_bind. rewrite run_bind.
  pose proof (authenticateToken_no_datastore E s cfg authHeader) as Hauth.
  destruct (run E (Middleware.authenticateToken cfg authHeader) s) as [[c s1] tr1].
  cbn [trace snd] in Hauth.
  destruct c as [[response | user] | e]; cbn.
  - rewrite datastore_calls_app, Hauth. reflexivity.
  - rewrite Hprog. cbn. rewrite datastore_calls_app, Hauth. reflexivity.
  - exact Hauth.
Qed.

Lemma invalid_status_rejected_witness :
  run (scripted everyday) (Fatherhood.update_status production "42" (JString "archived")) 0
  = (Returned (respond 400 [("error", jstr "Invalid status");
                            ("validStatuses", JArr [jstr "pending"; jstr "contacted";
                                                    jstr "enrolled"; jstr "inactive";
                                                    jstr "completed"])]),
     0, []).
Proof.
  destruct (invalid_status_rejected production "42" (JString "archived"))
    as (_ & Hrun & _); [reflexivity | reflexivity |].
  apply (Hrun (scripted everyday) 0).
Defined.

Example valid_status_is_written :
  run (scripted everyday) (Fatherhood.update_status production "42" (JString "contacted")) 0
  = (Returned (respond 200 [("success", jtrue);
                            ("data", JObj [("status", jstr "contacted")])]),
     1,
     [Ev (SignupsUpdateStatus (JString "contacted") "42")
         (Resolved {| pg_data := Some (JObj [("status", jstr "contacted")]);
                      pg_error := None |});
      Ev (ConsoleLog "Updated signup 42 status to: contacted") tt]).
Proof. reflexivity. Qed.

(** C4. A public signup whose email is already registered is answered
    409 [Email already registered], both when the existence check
    before the insert finds a record and when the insert reports a
    unique-constraint violation (error code 23505); a constraint
    violation is never answered with a 500. *)
Theorem signup_duplicate_email
  (E : Env) (s : env_state E) (body : Fatherhood.SignupBody) :
  (forall (checked : PgResult JsValue) (existing : JsValue),
     signup_checks (trace (run E (Fatherhood.signup body) s)) = [Resolved checked] ->
     pg_data checked = Some existing ->
     completion (run E (Fatherhood.signup body) s)
     = Returned (error_response 409 "Email already registered"
                   "This email is already signed up for the Fatherhood Initiative. If you need to update your information, please contact fatherhood@manupinc.org"))
  /\ (forall (inserted : PgResult SignupRow) (error : PgError),
        In (Resolved inserted) (inserts (trace (run E (Fatherhood.signup body) s))) ->
        pg_error inserted = Some error ->
        pg_code error = "23505" ->
        completion (run E (Fatherhood.signup body) s)
        = Returned (error_response 409 "Email already registered"
                      "This email is already signed up.")).
Proof.
  run_cases Hrun. unfold Fatherhood.signup, string_method in Hrun.
  split.
  - intros checked existing Hchecks Hdata.
    destruct (Fatherhood.email body); paths Hrun;
      try discriminate Hchecks;
      injection Hchecks as <-; try discriminate Hdata; reflexivity.
  - intros inserted error Hin Herror Hcode.
    destruct (Fatherhood.email body); paths Hrun;
      repeat (destruct Hin as [Hin | Hin]; [try discriminate Hin |]);
      try contradiction;
      injection Hin as <-; cbn in Herror;
      try discriminate Herror;
      injection Herror as ->;
      unfold Fatherhood.unique_violation in *;
      rewrite Hcode in *; cbn in *; first [discriminate | reflexivity].
Qed.

Lemma signup_duplicate_email_witness :
  completion (run (scripted duplicate_on_check) (Fatherhood.signup bob) 0)
    = Returned (error_response 409 "Email already registered"
                  "This email is already signed up for the Fatherhood Initiative. If you need to update your information, please contact fatherhood@manupinc.org")
  /\ completion (run (scripted duplicate_on_insert) (Fatherhood.signup bob) 0)
     = Returned (error_response 409 "Email already registered"
                   "This email is already signed up.").
Proof.
  split.
  - destruct (signup_duplicate_email (scripted duplicate_on_check) 0 bob) as [Hcheck _].
    apply (Hcheck {| pg_data := Some (JNumber 3); pg_error := None |} (JNumber 3));
      reflexivity.
  - destruct (signup_duplicate_email (scripted duplicate_on_insert) 0 bob) as [_ Hinsert].
    apply (Hinsert
             {| pg_data := None;
                pg_error := Some {| pg_code := "23505";
                                    pg_message := "duplicate key value violates unique constraint" |} |}
             {| pg_code := "23505";
                pg_message := "duplicate key value violates unique constraint" |});
      [left; reflexivity | reflexivity | reflexivity].
Defined.

Example everyday_signup :
  run (scripted everyday) (Fatherhood.signup bob) 0
  = (Returned (respond 201 [("success", jtrue);
                            ("message", jstr "Thank you for signing up for the Fatherhood Initiative!");
                            ("data", JObj [("full_name", jstr "Bob");
                                           ("email", jstr "bob@example.org");
                                           ("signup_date", jstr "2025-01-01")])]),
     1,
     [Ev (SignupsSelectIdByEmail (JString "Bob@Example.org"))
         (Resolved {| pg_data := None; pg_error := None |});
      Ev (SignupsInsert
            [("full_name", JString "Bob");
             ("email", JString "bob@example.org");
             ("phone_number", JString "555-0100");
             ("address", JNull);
             ("zip_code", JString "10001");
             ("number_of_children", JNumber 2);
             ("children_ages", JNull);
             ("referral_source", JNull);
             ("interests", JNull);
             ("availability", JNull);
             ("additional_notes", JNull);
             ("consent_to_contact", JBool true);
             ("consent_to_sms", JBool false);
             ("status", JString "pending")])
         (signup_insert everyday);
      Ev (ConsoleLog "New Fatherhood signup: Bob (bob@example.org)") tt]).
Proof. reflexivity. Qed.

(** Any other insert error is answered 500. *)
Example insert_failure_is_a_server_error :
  completion (run (scripted (with_signup (signup_check everyday) (Resolved failed) everyday))
                (Fatherhood.signup bob) 0)
  = Returned Fatherhood.save_failed.
Proof. reflexivity. Qed.

(** ** The rate limiter of the public signup *)

Example burst_served :
  map snd (Fatherhood.serve Fatherhood.signupLimiter ∅ burst)
  = [true; true; true; true; true; true; false].
Proof. vm_compute. reflexivity. Qed.

Section Limiter.

Import Fatherhood.

Variable opts : LimiterOptions.

(** The accepted attempts the limiter remembers for [ip]. *)
Local Abbreviation hist st ip := (default [] (st !! ip)).

Lemma filter_length_le {A : Type} (f g : A -> bool) (l : list A) :
  (forall x, f x = true -> g x = true) ->
  (length (List.filter f l) <= length (List.filter g l))%nat.
Proof.
  intros Hfg. induction l as [| x l IH]; cbn; [lia |].
  destruct (f x) eqn:Hf.
  - rewrite (Hfg x Hf). cbn. lia.
  - destruct (g x); cbn; lia.
Qed.

Lemma rateLimit_bounded (st : gmap string (list Z)) (ip : string) (now : Z) :
  bounded opts st -> bounded opts (rateLimit opts st ip now).2.
Proof.
  intros Hst. unfold rateLimit.
  destruct (length (recent opts now (hist st ip)) <? max opts)%nat eqn:Hfree;
    cbn [snd]; [| exact Hst].
  apply Nat.ltb_lt in Hfree.
  intros ip' from. destruct (decide (ip = ip')) as [<- | Hne].
  - rewrite lookup_insert_eq. cbn [default from_option id List.filter].
    destruct (in_window opts from now) eqn:Hnow; [| apply Hst].
    cbn [length].
    enough (length (List.filter (in_window opts from) (hist st ip))
            <= length (recent opts now (hist st ip)))%nat by lia.
    apply filter_length_le. intros t Ht.
    unfold in_window in *.
    apply andb_prop in Hnow as [_ Hnow], Ht as [Ht _].
    apply Z.ltb_lt in Hnow. apply Z.leb_le in Ht. apply Z.ltb_lt. lia.
  - rewrite lookup_insert_ne by exact Hne. apply Hst.
Qed.

Lemma accepted_times_cons (ip ip0 : string) (now : Z) (ok : bool)
  (log : list (Submission * bool)) :
  accepted_times ip ((ip0, now, ok) :: log)
  = ((if ok && (ip0 =? ip) then [now] else []) ++ accepted_times ip log)%list.
Proof. reflexivity. Qed.

Lemma serve_window (subs : list Submission) :
  forall (st : gmap string (list Z)) (ip : string) (from : Z),
    bounded opts st ->
    (length (List.filter (in_window opts from) (hist st ip))
     + length (List.filter (in_window opts from) (accepted_times ip (serve opts st subs)))
     <= max opts)%nat.
Proof.
  induction subs as [| [ip0 now] rest IH]; intros st ip from Hst.
  - cbn. specialize (Hst ip from). lia.
  - pose proof (rateLimit_bounded st ip0 now Hst) as Hst'.
    specialize (IH (rateLimit opts st ip0 now).2 ip from Hst').
    cbn [serve]. unfold rateLimit in *.
    destruct (length (recent opts now (hist st ip0)) <? max opts)%nat;
      rewrite accepted_times_cons; cbn [snd andb app] in *.
    + destruct (decide (ip0 = ip)) as [-> | Hne].
      * rewrite lookup_insert_eq in IH. cbn [default from_option id List.filter] in IH.
        rewrite String.eqb_refl. cbn [app List.filter].
        destruct (in_window opts from now); cbn [length] in *; lia.
      * rewrite lookup_insert_ne in IH by exact Hne.
        apply String.eqb_neq in Hne. rewrite Hne. exact IH.
    + exact IH.
Qed.

Lemma state_after_hist (subs : list Submission) :
  forall (st : gmap string (list Z)) (ip : string),
    hist (state_after opts st subs) ip
    = (rev (accepted_times ip (serve opts st subs)) ++ hist st ip)%list.
Proof.
  induction subs as [| [ip0 now] rest IH]; intros st ip; [reflexivity |].
  cbn [state_after serve]. rewrite IH. unfold rateLimit.
  destruct (length (recent opts now (hist st ip0)) <? max opts)%nat;
    rewrite accepted_times_cons; cbn [snd andb app].
  - destruct (decide (ip0 = ip)) as [-> | Hne].
    + rewrite lookup_insert_eq, String.eqb_refl. cbn [default from_option id app rev].
      rewrite <- app_assoc. reflexivity.
    + rewrite lookup_insert_ne by exact Hne.
      apply String.eqb_neq in Hne. rewrite Hne. reflexivity.
  - reflexivity.
Qed.

End Limiter.

(** C8. The limiter of the public signup route lets at most 5
    submissions of one source IP through in any window of one hour
    (3,600,000 ms); a further submission from that IP while 5 accepted
    ones are less than an hour old is answered 429 with the fixed
    message by the limiter itself, so that neither the validation nor
    the handler runs and no datastore call is made; while fewer than 5
    are, the limiter lets the submission through. *)
Theorem signup_rate_limit
  (validate : Fatherhood.SignupBody -> Response + Fatherhood.SignupBody)
  (subs : list Fatherhood.Submission) (ip : string) :
  (forall from : Z,
     (length (List.filter (fun t => (from <=? t)%Z && (t <? from + 3600000)%Z)
                (Fatherhood.accepted_times ip
                   (Fatherhood.serve Fatherhood.signupLimiter ∅ subs)))
      <= 5)%nat)
  /\ (forall (now : Z) (body : Fatherhood.SignupBody),
        (5 <= length (List.filter (fun t => (now - 3600000 <? t)%Z)
                        (Fatherhood.accepted_times ip
                           (Fatherhood.serve Fatherhood.signupLimiter ∅ subs))))%nat ->
        Fatherhood.signup_route validate
          (Fatherhood.state_after Fatherhood.signupLimiter ∅ subs) ip now body
        = (Ret {| status_code := 429;
                  json_body :=
                    JObj [("error", jstr "Too many signup attempts");
                          ("message", jstr "Too many signup attempts from this IP, please try again later.")] |},
           Fatherhood.state_after Fatherhood.signupLimiter ∅ subs))
  /\ (forall now : Z,
        (length (List.filter (fun t => (now - 3600000 <? t)%Z)
                   (Fatherhood.accepted_times ip
                      (Fatherhood.serve Fatherhood.signupLimiter ∅ subs)))
         < 5)%nat ->
        (Fatherhood.rateLimit Fatherhood.signupLimiter
           (Fatherhood.state_after Fatherhood.signupLimiter ∅ subs) ip now).1
        = None).
Proof.
  assert (Hrecent : forall now : Z,
             length (Fatherhood.recent Fatherhood.signupLimiter now
                       (default [] (Fatherhood.state_after Fatherhood.signupLimiter ∅ subs
                                      !! ip)))
             = length (List.filter (fun t => (now - 3600000 <? t)%Z)
                         (Fatherhood.accepted_times ip
                            (Fatherhood.serve Fatherhood.signupLimiter ∅ subs)))).
  { intros now. rewrite state_after_hist, lookup_empty. cbn [default from_option].
    rewrite app_nil_r. unfold Fatherhood.recent.
    rewrite List.filter_rev, length_rev. reflexivity. }
  split; [| split].
  - intros from.
    pose proof (serve_window Fatherhood.signupLimiter subs ∅ ip from) as Hwindow.
    rewrite lookup_empty in Hwindow. cbn [default from_option List.filter length] in Hwindow.
    apply Hwindow. intros ip' from'. rewrite lookup_empty. cbn. lia.
  - intros now body Hfull.
    unfold Fatherhood.signup_route, Fatherhood.rateLimit.
    rewrite Hrecent.
    destruct (Nat.ltb_spec
                (length (List.filter (fun t => (now - 3600000 <? t)%Z)
                           (Fatherhood.accepted_times ip
                              (Fatherhood.serve Fatherhood.signupLimiter ∅ subs))))
                (Fatherhood.max Fatherhood.signupLimiter)) as [Hlt | _].
    + cbn in Hlt. lia.
    + reflexivity.
  - intros now Hfree.
    unfold Fatherhood.rateLimit. rewrite Hrecent.
    destruct (Nat.ltb_spec
                (length (List.filter (fun t => (now - 3600000 <? t)%Z)
                           (Fatherhood.accepted_times ip
                              (Fatherhood.serve Fatherhood.signupLimiter ∅ subs))))
                (Fatherhood.max Fatherhood.signupLimiter)) as [_ | Hge].
    + reflexivity.
    + cbn in Hge. lia.
Qed.

Lemma signup_rate_limit_witness :
  Fatherhood.signup_route lenient
    (Fatherhood.state_after Fatherhood.signupLimiter ∅ busy_hour) "203.0.113.9" 5000 bob
  = (Ret {| status_code := 429;
            json_body :=
              JObj [("error", jstr "Too many signup attempts");
                    ("message", jstr "Too many signup attempts from this IP, please try again later.")] |},
     Fatherhood.state_after Fatherhood.signupLimiter ∅ busy_hour).
Proof.
  destruct (signup_rate_limit lenient busy_hour "203.0.113.9") as (_ & Hsixth & _).
  apply Hsixth. vm_compute. lia.
Defined.

(** Another address is served meanwhile, and the first one again once
    its accepted submissions are an hour old. *)
Example other_address_is_served :
  (Fatherhood.rateLimit Fatherhood.signupLimiter
     (Fatherhood.state_after Fatherhood.signupLimiter ∅ busy_hour) "198.51.100.7" 5000).1
  = None
  /\ (Fatherhood.rateLimit Fatherhood.signupLimiter
        (Fatherhood.state_after Fatherhood.signupLimiter ∅ busy_hour) "203.0.113.9" 3600000).1
     = None.
Proof. split; vm_compute; reflexivity. Qed.

(** * Further properties of the handlers *)

(** ** Login *)

(** X1. Every path of login and of password setup ends in a response: no
    exception leaves the handler, and the status is one of those the
    handler names. *)
Theorem auth_handlers_always_respond
  (E : Env) (s : env_state E) (cfg : Config) (body : Auth.Body) :
  (exists r : Response,
     completion (run E (Auth.login cfg body) s) = Returned r
     /\ In (status_code r) [200; 400; 401; 403; 500; 503]%Z)
  /\ (exists r : Response,
        completion (run E (Auth.setup_password cfg body) s) = Returned r
        /\ In (status_code r) [200; 400; 403; 404; 500; 503]%Z).
Proof.
  destruct body as [em pw]. split.
  - run_cases Hrun. unfold Auth.login, Auth.email_pattern, string_method in Hrun.
    destruct em; paths Hrun; eexists; (split; [reflexivity |]); cbn; tauto.
  - run_cases Hrun. unfold Auth.setup_password, Auth.email_pattern, string_method in Hrun.
    destruct em; paths Hrun; eexists; (split; [reflexivity |]); cbn; tauto.
Qed.

(** X2. A login answers 200 only when the lookup returned a record that is
    active and has a hash, the comparison of the submitted password with
    that hash answered true, and the token was signed for the id, email
    and name of that record with the configured secret and a lifetime of
    24 hours; the response then carries that token and that identity. *)
Theorem login_token_requires_verified_password
  (E : Env) (s : env_state E) (cfg : Config) (body : Auth.Body) (r : Response) :
  completion (run E (Auth.login cfg body) s) = Returned r ->
  status_code r = 200%Z ->
  exists (user : AdminUser) (token secret : string),
    lookups (trace (run E (Auth.login cfg body) s))
      = [Resolved {| pg_data := Some user; pg_error := None |}]
    /\ truthy (is_active user) = true
    /\ truthy (password_hash user) = true
    /\ comparisons (trace (run E (Auth.login cfg body) s))
       = [(Auth.password body, password_hash user, Resolved true)]
    /\ truthy_secret cfg = Some secret
    /\ sign_requests (trace (run E (Auth.login cfg body) s))
       = [([("id", user_id user); ("email", user_email user); ("name", user_name user)],
           secret, "24h", Resolved token)]
    /\ r = Auth.login_successful token user.
Proof.
  destruct body as [em pw].
  run_cases Hrun. unfold Auth.login, Auth.email_pattern, string_method in Hrun.
  destruct em; paths Hrun; intros Hr Hstatus; injection Hr as <-;
    try discriminate Hstatus.
  all: repeat match goal with
              | H : negb _ = false |- _ => apply negb_false_iff in H
              end.
  all: eexists _, _, _; repeat split; first [reflexivity | eassumption].
Qed.

Lemma login_token_requires_verified_password_witness :
  exists (user : AdminUser) (token secret : string),
    comparisons (trace (run (scripted everyday)
                          (Auth.login production (credentials "alice@example.org" "Secret123")) 0))
      = [(JString "Secret123", password_hash user, Resolved true)]
    /\ truthy_secret production = Some secret
    /\ Auth.login_successful "header.payload.signature" alice = Auth.login_successful token user.
Proof.
  destruct (login_token_requires_verified_password (scripted everyday) 0 production
              (credentials "alice@example.org" "Secret123")
              (Auth.login_successful "header.payload.signature" alice))
    as (user & token & secret & _ & _ & _ & Hcompare & Hsecret & _ & Hr);
    [reflexivity | reflexivity |].
  exists user, token, secret. repeat split; assumption.
Defined.

(** X3. A lookup that reports an error in its result is answered like an
    unknown email, 401 [Invalid credentials], whatever the error is and
    even if a row came with it; only a lookup that throws is answered
    500. *)
Theorem login_lookup_failures
  (E : Env) (s : env_state E) (cfg : Config) (body : Auth.Body) :
  (forall (r : PgResult AdminUser) (e : PgError),
     lookups (trace (run E (Auth.login cfg body) s)) = [Resolved r] ->
     pg_error r = Some e ->
     completion (run E (Auth.login cfg body) s)
     = Returned (error_response 401 "Invalid credentials" "Invalid email or password"))
  /\ (forall e : Thrown,
        lookups (trace (run E (Auth.login cfg body) s)) = [Rejected e] ->
        completion (run E (Auth.login cfg body) s)
        = Returned (error_response 500 "Server error"
                      "An unexpected error occurred during login")).
Proof.
  destruct body as [em pw].
  run_cases Hrun. unfold Auth.login, Auth.email_pattern, string_method in Hrun.
  split.
  - intros r err Hlookup Herror.
    destruct em; paths Hrun; try discriminate Hlookup;
      injection Hlookup as <-; try discriminate Herror; reflexivity.
  - intros err Hlookup.
    destruct em; paths Hrun; try discriminate Hlookup; reflexivity.
Qed.

Lemma login_lookup_failures_witness :
  completion (run (scripted (with_lookup (Resolved failed) everyday))
                (Auth.login production (credentials "alice@example.org" "Secret123")) 0)
    = Returned (error_response 401 "Invalid credentials" "Invalid email or password")
  /\ completion (run (scripted (with_lookup (Rejected (ThrownError "Error" "socket hang up"))
                                  everyday))
                   (Auth.login production (credentials "alice@example.org" "Secret123")) 0)
     = Returned (error_response 500 "Server error" "An unexpected error occurred during login").
Proof.
  split.
  - destruct (login_lookup_failures (scripted (with_lookup (Resolved failed) everyday)) 0
                production (credentials "alice@example.org" "Secret123")) as [Herror _].
    apply (Herror failed {| pg_code := "57014"; pg_message := "statement timeout" |});
      reflexivity.
  - destruct (login_lookup_failures
                (scripted (with_lookup (Rejected (ThrownError "Error" "socket hang up"))
                             everyday)) 0
                production (credentials "alice@example.org" "Secret123")) as [_ Hthrown].
    apply (Hthrown (ThrownError "Error" "socket hang up")). reflexivity.
Defined.

(** X4. Login makes at most one datastore write, and none unless the
    comparison of the submitted password answered true and a token was
    signed. *)
Theorem login_writes_after_verification
  (E : Env) (s : env_state E) (cfg : Config) (body : Auth.Body) :
  (length (datastore_writes (trace (run E (Auth.login cfg body) s))) <= 1)%nat
  /\ (datastore_writes (trace (run E (Auth.login cfg body) s)) <> [] ->
      exists (hash : JsValue) (token : string),
        comparisons (trace (run E (Auth.login cfg body) s))
          = [(Auth.password body, hash, Resolved true)]
        /\ signatures (trace (run E (Auth.login cfg body) s)) = [Resolved token]).
Proof.
  destruct body as [em pw].
  run_cases Hrun. unfold Auth.login, Auth.email_pattern, string_method in Hrun.
  destruct em; paths Hrun;
    (split; [lia | intros Hwrite; try contradiction; eexists _, _; split; reflexivity]).
Qed.

Lemma login_writes_after_verification_witness :
  exists (hash : JsValue) (token : string),
    comparisons (trace (run (scripted everyday)
                          (Auth.login production (credentials "alice@example.org" "Secret123")) 0))
      = [(JString "Secret123", hash, Resolved true)]
    /\ signatures (trace (run (scripted everyday)
                            (Auth.login production (credentials "alice@example.org" "Secret123")) 0))
       = [Resolved token].
Proof.
  destruct (login_writes_after_verification (scripted everyday) 0 production
              (credentials "alice@example.org" "Secret123")) as [_ Hwrite].
  apply Hwrite. vm_compute. discriminate.
Defined.

(** X5. A truthy email that is not a string (a JSON number, or [true])
    passes the presence check and makes [email.trim()] throw: login and
    password setup answer 500, and the datastore is not consulted. *)
Theorem non_string_email_is_a_server_error
  (E : Env) (s : env_state E) (cfg : Config) (body : Auth.Body) :
  supabaseAdmin cfg = true ->
  truthy (Auth.email body) = true ->
  is_string (Auth.email body) = false ->
  truthy (Auth.password body) = true ->
  (completion (run E (Auth.login cfg body) s)
   = Returned (error_response 500 "Server error" "An unexpected error occurred during login")
   /\ datastore_calls (trace (run E (Auth.login cfg body) s)) = [])
  /\ (passwordRegex_test (js_to_string (Auth.password body)) = true ->
      completion (run E (Auth.setup_password cfg body) s)
      = Returned (error_response 500 "Server error"
                    "Failed to set password. Please try again.")
      /\ datastore_calls (trace (run E (Auth.setup_password cfg body) s)) = []).
Proof.
  intros Hcfg Hemail Hstring Hpw. destruct body as [em pw]; cbn in *.
  split; [| intros Hregex];
    run_cases Hrun;
    [unfold Auth.login in Hrun | unfold Auth.setup_password in Hrun];
    unfold Auth.email_pattern, string_method in Hrun;
    destruct em; cbn in Hemail, Hstring; try discriminate; clear Hstring;
    paths Hrun; split; reflexivity.
Qed.

Lemma non_string_email_is_a_server_error_witness :
  completion (run (scripted everyday)
                (Auth.login production
                   {| Auth.email := JNumber 5; Auth.password := JString "Secret123" |}) 0)
    = Returned (error_response 500 "Server error" "An unexpected error occurred during login")
  /\ datastore_calls
       (trace (run (scripted everyday)
                 (Auth.login production
                    {| Auth.email := JNumber 5; Auth.password := JString "Secret123" |}) 0))
     = [].
Proof.
  apply (non_string_email_is_a_server_error (scripted everyday) 0 production
           {| Auth.email := JNumber 5; Auth.password := JString "Secret123" |});
    reflexivity.
Defined.

(** X6. Without the privileged client no route of the authentication
    router consults the datastore: login and password setup answer
    before any lookup (503 when email and password are present), and the
    activity handlers skip their update. *)
Theorem auth_routes_without_privileged_client
  (E : Env) (s : env_state E) (cfg : Config) (body : Auth.Body) (user : ReqUser) :
  supabaseAdmin cfg = false ->
  datastore_calls (trace (run E (Auth.login cfg body) s)) = []
  /\ datastore_calls (trace (run E (Auth.setup_password cfg body) s)) = []
  /\ run E (Auth.logout cfg user) s = (Returned Auth.logged_out, s, [])
  /\ run E (Auth.update_activity cfg user) s = (Returned Auth.activity_updated, s, [])
  /\ (truthy (Auth.email body) = true -> truthy (Auth.password body) = true ->
      completion (run E (Auth.login cfg body) s)
      = Returned (error_response 503 "Service unavailable"
                    "Admin authentication service is not configured")).
Proof.
  intros Hcfg. destruct body as [em pw].
  unfold Auth.logout, Auth.update_activity, Auth.touch_activity. rewrite Hcfg.
  repeat split.
  - run_cases Hrun. unfold Auth.login in Hrun. paths Hrun; reflexivity.
  - run_cases Hrun. unfold Auth.setup_password in Hrun. paths Hrun; reflexivity.
  - cbn in *. intros Hemail Hpw.
    run_cases Hrun. unfold Auth.login in Hrun. paths Hrun; reflexivity.
Qed.

Lemma auth_routes_without_privileged_client_witness :
  completion (run (scripted everyday)
                (Auth.login {| supabaseAdmin := false; JWT_SECRET := None |}
                   (credentials "alice@example.org" "Secret123")) 0)
  = Returned (error_response 503 "Service unavailable"
                "Admin authentication service is not configured").
Proof.
  destruct (auth_routes_without_privileged_client (scripted everyday) 0
              {| supabaseAdmin := false; JWT_SECRET := None |}
              (credentials "alice@example.org" "Secret123") alice_token)
    as (_ & _ & _ & _ & Hlogin); [reflexivity |].
  apply Hlogin; reflexivity.
Defined.

(** ** Password setup *)

(** X7. What password setup stores is the digest that hashing the submitted
    password with cost 12 returned, never the password itself, and only
    for a password that passes the strength pattern. *)
Theorem setup_password_stores_the_hash
  (E : Env) (s : env_state E) (cfg : Config) (body : Auth.Body)
  (values : Fields) (answer : Outcome (PgResult unit)) (stored : JsValue) :
  In (values, answer) (admin_updates (trace (run E (Auth.setup_password cfg body) s))) ->
  get_field "password_hash" values = Some stored ->
  exists digest : string,
    stored = JString digest
    /\ hashings (trace (run E (Auth.setup_password cfg body) s))
       = [(Auth.password body, 12%nat, Resolved digest)]
    /\ passwordRegex_test (js_to_string (Auth.password body)) = true.
Proof.
  destruct body as [em pw].
  run_cases Hrun. unfold Auth.setup_password, Auth.email_pattern, string_method in Hrun.
  destruct em; paths Hrun; intros Hin Hfield;
    repeat (destruct Hin as [Hin | Hin];
            [try (injection Hin as <- <-; cbn in Hfield; try discriminate Hfield) |]);
    try contradiction;
    injection Hfield as <-;
    repeat match goal with
           | H : negb _ = false |- _ => apply negb_false_iff in H
           end;
    eexists; repeat split; first [reflexivity | eassumption].
Qed.

Lemma setup_password_stores_the_hash_witness :
  exists digest : string,
    JString "$2b$12$fresh" = JString digest
    /\ hashings (trace (run (scripted everyday)
                          (Auth.setup_password production
                             (credentials "alice@example.org" "Secret123")) 0))
       = [(JString "Secret123", 12%nat, Resolved digest)]
    /\ passwordRegex_test "Secret123" = true.
Proof.
  apply (setup_password_stores_the_hash (scripted everyday) 0 production
           (credentials "alice@example.org" "Secret123")
           [("password_hash", JString "$2b$12$fresh");
            ("first_login", JBool false);
            ("updated_at", JString "2025-01-01T00:00:00.000Z")]
           (Resolved updated_ok) (JString "$2b$12$fresh"));
    [left; reflexivity | reflexivity].
Defined.

(** X8. Unlike login, password setup reads the result of its first update:
    when the datastore reports an error for it, the response is 500 and
    no token is signed. *)
Theorem setup_password_update_error
  (E : Env) (s : env_state E) (cfg : Config) (body : Auth.Body)
  (values : Fields) (result : PgResult unit) (e : PgError) :
  admin_updates (trace (run E (Auth.setup_password cfg body) s)) = [(values, Resolved result)] ->
  pg_error result = Some e ->
  completion (run E (Auth.setup_password cfg body) s)
    = Returned (error_response 500 "Server error" "Failed to set password. Please try again.")
  /\ signatures (trace (run E (Auth.setup_password cfg body) s)) = [].
Proof.
  destruct body as [em pw].
  run_cases Hrun. unfold Auth.setup_password, Auth.email_pattern, string_method in Hrun.
  destruct em; paths Hrun; intros Hupdates Herror;
    try discriminate Hupdates;
    injection Hupdates as <- <-; try discriminate Herror;
    split; reflexivity.
Qed.

Lemma setup_password_update_error_witness :
  completion (run (scripted (with_admin_update (Resolved failed) everyday))
                (Auth.setup_password production (credentials "alice@example.org" "Secret123")) 0)
    = Returned (error_response 500 "Server error" "Failed to set password. Please try again.")
  /\ signatures (trace (run (scripted (with_admin_update (Resolved failed) everyday))
                          (Auth.setup_password production
                             (credentials "alice@example.org" "Secret123")) 0))
     = [].
Proof.
  apply (setup_password_update_error (scripted (with_admin_update (Resolved failed) everyday))
           0 production (credentials "alice@example.org" "Secret123")
           [("password_hash", JString "$2b$12$fresh");
            ("first_login", JBool false);
            ("updated_at", JString "2025-01-01T00:00:00.000Z")]
           failed {| pg_code := "57014"; pg_message := "statement timeout" |});
    reflexivity.
Defined.

(** X9. The signing secret is read only after the new hash has been
    written: when it is missing, password setup answers 500 [Server
    configuration error] although the password has been changed. *)
Theorem setup_password_missing_secret
  (E : Env) (s : env_state E) (cfg : Config) (body : Auth.Body)
  (values : Fields) (result : PgResult unit) :
  truthy_secret cfg = None ->
  admin_updates (trace (run E (Auth.setup_password cfg body) s)) = [(values, Resolved result)] ->
  pg_error result = None ->
  completion (run E (Auth.setup_password cfg body) s)
    = Returned (error_response 500 "Server configuration error"
                  "Authentication system not properly configured")
  /\ (exists digest : string, get_field "password_hash" values = Some (JString digest))
  /\ length (datastore_writes (trace (run E (Auth.setup_password cfg body) s))) = 1%nat.
Proof.
  intros Hsecret. destruct body as [em pw].
  run_cases Hrun. unfold Auth.setup_password, Auth.email_pattern, string_method in Hrun.
  destruct em; paths Hrun; intros Hupdates Herror;
    try discriminate Hupdates;
    injection Hupdates as <- <-; try discriminate Herror;
    (split; [reflexivity | split; [eexists; reflexivity | reflexivity]]).
Qed.

Lemma setup_password_missing_secret_witness :
  completion (run (scripted everyday)
                (Auth.setup_password {| supabaseAdmin := true; JWT_SECRET := None |}
                   (credentials "alice@example.org" "Secret123")) 0)
    = Returned (error_response 500 "Server configuration error"
                  "Authentication system not properly configured")
  /\ final_state (run (scripted everyday)
                    (Auth.setup_password {| supabaseAdmin := true; JWT_SECRET := None |}
                       (credentials "alice@example.org" "Secret123")) 0)
     = 1%nat.
Proof.
  split; [| reflexivity].
  apply (setup_password_missing_secret (scripted everyday) 0
           {| supabaseAdmin := true; JWT_SECRET := None |}
           (credentials "alice@example.org" "Secret123")
           [("password_hash", JString "$2b$12$fresh");
            ("first_login", JBool false);
            ("updated_at", JString "2025-01-01T00:00:00.000Z")]
           updated_ok);
    reflexivity.
Defined.

(** X10. Password setup tells an unknown email apart: when the lookup
    returns no row (or reports an error) the answer is 404 [User not
    found], where login answers 401, and nothing is written. *)
Theorem setup_password_unknown_email
  (E : Env) (s : env_state E) (cfg : Config) (body : Auth.Body)
  (r : PgResult AdminUser) :
  lookups (trace (run E (Auth.setup_password cfg body) s)) = [Resolved r] ->
  pg_data r = None \/ pg_error r <> None ->
  completion (run E (Auth.setup_password cfg body) s)
    = Returned (error_response 404 "User not found"
                  "No account found with this email address")
  /\ datastore_writes (trace (run E (Auth.setup_password cfg body) s)) = [].
Proof.
  destruct body as [em pw].
  run_cases Hrun. unfold Auth.setup_password, Auth.email_pattern, string_method in Hrun.
  destruct em; paths Hrun; intros Hlookup Hmissing;
    try discriminate Hlookup;
    injection Hlookup as <-; cbn in Hmissing;
    try (destruct Hmissing; congruence);
    split; reflexivity.
Qed.

Lemma setup_password_unknown_email_witness :
  completion (run (scripted stranger)
                (Auth.setup_password production
                   (credentials "mallory@example.org" "Secret123")) 0)
    = Returned (error_response 404 "User not found"
                  "No account found with this email address")
  /\ datastore_writes
       (trace (run (scripted stranger)
                 (Auth.setup_password production
                    (credentials "mallory@example.org" "Secret123")) 0))
     = [].
Proof.
  apply (setup_password_unknown_email (scripted stranger) 0 production
           (credentials "mallory@example.org" "Secret123") no_rows);
    [reflexivity | left; reflexivity].
Defined.

Lemma dotstar_then_single_line (cls : ascii -> bool) (s : string) :
  single_line s = true -> dotstar_then cls s = existsb cls (chars s).
Proof.
  unfold single_line. induction s as [| c r IH]; cbn; [reflexivity |].
  intros H. apply andb_prop in H as [Hc Hr]. rewrite Hc, (IH Hr). reflexivity.
Qed.

(** X11. The password pattern accepts exactly the passwords that satisfy the
    strength rule and contain no line terminator. *)
Theorem passwordRegex_exact (s : string) :
  passwordRegex_test s = strength_rule s && single_line s.
Proof.
  unfold passwordRegex_test, dots_to_end, strength_rule.
  fold (single_line s).
  destruct (single_line s) eqn:Hline.
  - rewrite !(dotstar_then_single_line _ s Hline).
    destruct (8 <=? String.length s)%nat, (existsb is_upper (chars s)),
      (existsb is_lower (chars s)), (existsb is_digit (chars s)); reflexivity.
  - rewrite !andb_false_r. reflexivity.
Qed.

(** ** The middleware and the protected routes *)

(** X12. What the middleware answers when verification throws depends on
    the name of the error alone: [TokenExpiredError] gives 401 [Token
    has expired], [JsonWebTokenError] gives 401 [Invalid token], and
    every other error (a token that is not yet valid, for instance) gives
    500 [Authentication error]. *)
Theorem token_verification_failures
  (E : Env) (s : env_state E) (cfg : Config) (authHeader : option string)
  (token secret : string) (e : Thrown) :
  verifications (trace (run E (Middleware.authenticateToken cfg authHeader) s))
    = [(token, secret, Rejected e)] ->
  completion (run E (Middleware.authenticateToken cfg authHeader) s)
  = Returned
      (inl (if strict_eq_string (thrown_name e) "TokenExpiredError"
            then error_response 401 "Unauthorized" "Token has expired. Please log in again."
            else if strict_eq_string (thrown_name e) "JsonWebTokenError"
            then error_response 401 "Unauthorized" "Invalid token"
            else error_response 500 "Authentication error"
                   "Failed to verify authentication token")).
Proof.
  run_cases Hrun. unfold Middleware.authenticateToken in Hrun.
  destruct (Middleware.header_token authHeader) as [tok |].
  - unfold Middleware.verify_token in Hrun.
    paths Hrun; intros Hverify; try discriminate Hverify;
      injection Hverify as <- <- <-;
      repeat match goal with
             | H : strict_eq_string _ _ = _ |- _ => rewrite H; clear H
             end;
      reflexivity.
  - paths Hrun. intros Hverify. discriminate Hverify.
Qed.

Lemma token_verification_failures_witness :
  completion (run (scripted not_yet_valid)
                (Middleware.authenticateToken production (Some "Bearer header.payload.signature"))
                0)
  = Returned (inl (error_response 500 "Authentication error"
                     "Failed to verify authentication token")).
Proof.
  apply (token_verification_failures (scripted not_yet_valid) 0 production (Some "Bearer header.payload.signature")
           "header.payload.signature" "0123456789abcdef0123456789abcdef"
           (ThrownError "NotBeforeError" "jwt not active")).
  reflexivity.
Defined.

(** X13. A request that carries a token while the signing secret is missing
    or empty is answered 500 [Server configuration error] without the
    token being looked at; a request without a token is answered 401
    even then. *)
Theorem middleware_missing_secret
  (E : Env) (s : env_state E) (cfg : Config) (authHeader : option string) :
  truthy_secret cfg = None ->
  verifications (trace (run E (Middleware.authenticateToken cfg authHeader) s)) = []
  /\ completion (run E (Middleware.authenticateToken cfg authHeader) s)
     = Returned (inl (match Middleware.header_token authHeader with
                      | Some _ => error_response 500 "Server configuration error"
                                    "Authentication system not properly configured"
                      | None => error_response 401 "Unauthorized"
                                  "No authentication token provided"
                      end)).
Proof.
  intros Hsecret.
  run_cases Hrun. unfold Middleware.authenticateToken in Hrun.
  destruct (Middleware.header_token authHeader) as [tok |].
  - unfold Middleware.verify_token in Hrun. paths Hrun. split; reflexivity.
  - paths Hrun. split; reflexivity.
Qed.

Lemma middleware_missing_secret_witness :
  completion (run (scripted everyday)
                (Middleware.authenticateToken {| supabaseAdmin := true; JWT_SECRET := Some "" |}
                   (Some "Bearer header.payload.signature")) 0)
  = Returned (inl (error_response 500 "Server configuration error"
                     "Authentication system not properly configured")).
Proof.
  apply (middleware_missing_secret (scripted everyday) 0
           {| supabaseAdmin := true; JWT_SECRET := Some "" |}
           (Some "Bearer header.payload.signature")).
  reflexivity.
Defined.

(** X14. The middleware never throws, and when it answers the request itself
    the handler of a protected route is not run: the protected route
    ends with the middleware's response, state and trace. *)
Theorem protected_route_rejection
  (E : Env) (s : env_state E) (cfg : Config) (authHeader : option string)
  (handler : ReqUser -> Prog Response) :
  (exists d : Response + ReqUser,
     completion (run E (Middleware.authenticateToken cfg authHeader) s) = Returned d)
  /\ (forall (response : Response) (s' : env_state E) (tr : list Event),
        run E (Middleware.authenticateToken cfg authHeader) s = (Returned (inl response), s', tr) ->
        run E (Middleware.protected cfg authHeader handler) s = (Returned response, s', tr)).
Proof.
  split.
  - unfold Middleware.authenticateToken.
    destruct (Middleware.header_token authHeader) as [tok |]; [| eexists; reflexivity].
    unfold Middleware.verify_token. apply run_try_catch_returns.
    intros e s1.
    destruct (strict_eq_string (thrown_name e) "TokenExpiredError");
      [eexists; reflexivity |].
    destruct (strict_eq_string (thrown_name e) "JsonWebTokenError");
      [eexists; reflexivity |].
    cbn. destruct (env_answer E _ _ s1) as [[] ?]. eexists; reflexivity.
  - intros response s' tr Hauth.
    unfold Middleware.protected, mbind, prog_bind. rewrite run_bind, Hauth.
    cbn. rewrite app_nil_r. reflexivity.
Qed.

Lemma protected_route_rejection_witness :
  run (scripted everyday)
    (Middleware.protected production (Some "header.payload.signature") (Auth.logout production)) 0
  = (Returned (error_response 401 "Unauthorized" "No authentication token provided"), 0%nat, []).
Proof.
  destruct (protected_route_rejection (scripted everyday) 0 production
              (Some "header.payload.signature") (Auth.logout production)) as [_ Hreject].
  apply Hreject. reflexivity.
Defined.

(** X15. [GET /verify] hands back the claims of the token: when the token
    of the Authorization header verifies, the response is 200 with the
    [id], [email] and [name] that verification decoded. *)
Theorem verify_returns_the_claims
  (E : Env) (s : env_state E) (cfg : Config) (authHeader : option string)
  (token secret : string) (decoded : ReqUser) :
  verifications (trace (run E (Middleware.protected cfg authHeader Auth.verify) s))
    = [(token, secret, Resolved decoded)] ->
  completion (run E (Middleware.protected cfg authHeader Auth.verify) s)
    = Returned (respond 200 [("success", jtrue);
                             ("user", JObj [("id", JVal (claim_id decoded));
                                            ("email", JVal (claim_email decoded));
                                            ("name", JVal (claim_name decoded))])])
  /\ Middleware.header_token authHeader = Some token
  /\ truthy_secret cfg = Some secret.
Proof.
  run_cases Hrun.
  unfold Middleware.protected, Middleware.authenticateToken, Auth.verify in Hrun.
  destruct (Middleware.header_token authHeader) as [tok |].
  - unfold Middleware.verify_token in Hrun.
    paths Hrun; intros Hverify; try discriminate Hverify.
    injection Hverify as <- <- <-. repeat split.
  - paths Hrun. intros Hverify. discriminate Hverify.
Qed.

Lemma verify_returns_the_claims_witness :
  completion (run (scripted everyday)
                (Middleware.protected production (Some "Bearer header.payload.signature")
                   Auth.verify) 0)
  = Returned (respond 200 [("success", jtrue);
                           ("user", JObj [("id", JVal (JNumber 7));
                                          ("email", jstr "alice@example.org");
                                          ("name", jstr "Alice")])]).
Proof.
  apply (verify_returns_the_claims (scripted everyday) 0 production
           (Some "Bearer header.payload.signature")
           "header.payload.signature" "0123456789abcdef0123456789abcdef" alice_token).
  reflexivity.
Defined.

(** ** The public signup *)



(** X17. An error reported by the existence check is logged and otherwise
    ignored: as long as the check returned no row, the insert is
    attempted, and the unique constraint decides. *)
Theorem signup_check_error_is_not_fatal
  (E : Env) (s : env_state E) (body : Fatherhood.SignupBody)
  (checked : PgResult JsValue) (submitted : string) :
  signup_checks (trace (run E (Fatherhood.signup body) s)) = [Resolved checked] ->
  pg_data checked = None ->
  Fatherhood.email body = JString submitted ->
  inserted_rows (trace (run E (Fatherhood.signup body) s))
  = [Fatherhood.signup_row body (js_toLowerCase submitted)].
Proof.
  intros Hcheck Hdata Hemail. revert Hcheck.
  run_cases Hrun. unfold Fatherhood.signup, string_method in Hrun. rewrite Hemail in Hrun.
  paths Hrun; intros Hcheck; try discriminate Hcheck;
    injection Hcheck as <-; try discriminate Hdata; reflexivity.
Qed.

Lemma signup_check_error_is_not_fatal_witness :
  inserted_rows (trace (run (scripted (with_signup (Resolved failed) (signup_insert everyday)
                                         everyday))
                          (Fatherhood.signup bob) 0))
  = [Fatherhood.signup_row bob "bob@example.org"].
Proof.
  apply (signup_check_error_is_not_fatal
           (scripted (with_signup (Resolved failed) (signup_insert everyday) everyday)) 0 bob
           failed "Bob@Example.org");
    reflexivity.
Defined.

(** X18. How the answer of the insert decides the response: a stored row
    gives 201 with its name, email and signup date and nothing else of
    it; an error other than the unique-constraint violation gives 500
    [Failed to save signup]; an insert that throws, or returns neither
    row nor error, gives 500 [Server error]. *)
Theorem signup_insert_outcomes
  (E : Env) (s : env_state E) (body : Fatherhood.SignupBody) :
  (forall (r : PgResult SignupRow) (stored : SignupRow),
     inserts (trace (run E (Fatherhood.signup body) s)) = [Resolved r] ->
     pg_error r = None -> pg_data r = Some stored ->
     completion (run E (Fatherhood.signup body) s)
     = Returned (respond 201
                   [("success", jtrue);
                    ("message", jstr "Thank you for signing up for the Fatherhood Initiative!");
                    ("data", JObj [("full_name", JVal (row_full_name stored));
                                   ("email", JVal (row_email stored));
                                   ("signup_date", JVal (row_signup_date stored))])]))
  /\ (forall (r : PgResult SignupRow) (e : PgError),
        inserts (trace (run E (Fatherhood.signup body) s)) = [Resolved r] ->
        pg_error r = Some e -> (pg_code e =? "23505") = false ->
        completion (run E (Fatherhood.signup body) s)
        = Returned (error_response 500 "Failed to save signup"
                      "We couldn't process your signup. Please try again or contact fatherhood@manupinc.org"))
  /\ (forall o : Outcome (PgResult SignupRow),
        inserts (trace (run E (Fatherhood.signup body) s)) = [o] ->
        match o with
        | Rejected _ => True
        | Resolved r => pg_error r = None /\ pg_data r = None
        end ->
        completion (run E (Fatherhood.signup body) s)
        = Returned (error_response 500 "Server error"
                      "An unexpected error occurred. Please try again.")).
Proof.
  run_cases Hrun. unfold Fatherhood.signup, string_method in Hrun.
  repeat split.
  - intros r stored Hinsert Herror Hdata.
    destruct (Fatherhood.email body); paths Hrun; try discriminate Hinsert;
      injection Hinsert as <-; cbn in Herror, Hdata; try discriminate;
      injection Hdata as <-; reflexivity.
  - intros r err Hinsert Herror Hcode.
    destruct (Fatherhood.email body); paths Hrun; try discriminate Hinsert;
      injection Hinsert as <-; cbn in Herror; try discriminate;
      injection Herror as ->; unfold Fatherhood.unique_violation in *;
      first [reflexivity | congruence].
  - intros o Hinsert Ho.
    destruct (Fatherhood.email body); paths Hrun; try discriminate Hinsert;
      injection Hinsert as <-; cbn in Ho; try reflexivity;
      destruct Ho; discriminate.
Qed.

Lemma signup_insert_outcomes_witness :
  completion (run (scripted (with_signup (signup_check everyday) (Resolved failed) everyday))
                (Fatherhood.signup bob) 0)
  = Returned (error_response 500 "Failed to save signup"
                "We couldn't process your signup. Please try again or contact fatherhood@manupinc.org").
Proof.
  destruct (signup_insert_outcomes
              (scripted (with_signup (signup_check everyday) (Resolved failed) everyday)) 0 bob)
    as (_ & Hfailed & _).
  apply (Hfailed failed {| pg_code := "57014"; pg_message := "statement timeout" |});
    reflexivity.
Defined.

(** ** The administrative routes *)

Ltac split_reply x :=
  lazymatch type of x with
  | Outcome _ => let a := fresh "a" in destruct x as [a|?]; try split_reply a
  | PgResult _ => let d := fresh "data" in
                  let e := fresh "err" in
                  destruct x as [d e]; destruct d, e
  | Admin.ListResult => let d := fresh "data" in
                        let e := fresh "err" in
                        destruct x as [d e ?]; destruct d, e
  | Admin.CountResult => destruct x as [? ?]
  | bool => destruct x
  | unit => destruct x
  | _ => idtac
  end.

Ltac follow_step H :=
  cbn in H;
  first
    [ progress (repeat match goal with
                       | Hb : _ = true |- _ => rewrite Hb in H
                       | Hb : _ = false |- _ => rewrite Hb in H
                       end)
    | lazymatch type of H with
      | context [answer_of ?E ?X ?op ?s] =>
          let x := fresh "x" in
          let s' := fresh "s" in
          destruct (answer_of E X op s) as [x s'] eqn:?; split_reply x
      | context [if ?b then _ else _] => destruct b eqn:?
      | context [match ?j with JVal _ => _ | JArr _ => _ | JObj _ => _ end] =>
          is_var j; destruct j as [[] | |]
      end ].

(** Follow every path of [H : execute E p s = (c, s', tr)]. *)
Ltac follow H :=
  repeat follow_step H; cbn in H;
  lazymatch type of H with
  | (_, _, _) = (_, _, _) => injection H as <- <- <-; cbn in *
  | _ => idtac
  end.

Ltac execute_cases H :=
  match goal with
  | |- context [execute ?E ?p ?s] =>
      destruct (execute E p s) as [[? ?] ?] eqn:H
  end.

(** X19. With a limit, the list query asks for the rows from [offset] to
    [offset + limit - 1] ([offset] is 0 when absent) and the response
    reports the total, the limit, the offset and whether more rows
    follow, that is whether [offset] plus the number of rows returned is
    below the total. *)
Theorem list_pagination
  (E : EnvOf Admin.AdminOp) (s : state_of E) (cfg : Config) (status limit offset : JsValue)
  (range : option (Number * Number)) (filter : option JsValue)
  (rows : list Json) (total l o : Z) :
  truthy limit = true ->
  parseInt (js_to_string limit) = Int l ->
  parseInt (js_to_string (Admin.offset_or_default offset)) = Int o ->
  small l = true -> small o = true ->
  list_queries (events (execute E (Admin.list_signups cfg status limit offset) s))
    = [(range, filter,
        Resolved {| Admin.list_data := Some rows;
                    Admin.list_error := None;
                    Admin.list_count := Some total |})] ->
  range = Some (Int o, Int (o + l - 1))
  /\ filter = (if truthy status then Some status else None)
  /\ result (execute E (Admin.list_signups cfg status limit offset) s)
     = Returned (respond 200
                   [("success", jtrue);
                    ("data", JArr rows);
                    ("pagination",
                     JObj [("total", JVal (JNumber total));
                           ("limit", JVal (JNumber l));
                           ("offset", JVal (JNumber o));
                           ("hasMore",
                            JVal (JBool (o + Z.of_nat (length rows) <? total)%Z))])]).
Proof.
  intros Hlimit Hl Ho _ _.
  execute_cases Hrun. unfold Admin.list_signups in Hrun. rewrite Hl, Ho in Hrun.
  follow Hrun; intros Hquery; try discriminate Hquery;
    injection Hquery as <- <- <- ->; repeat split.
Qed.

Lemma list_pagination_witness :
  result (execute (admin_scripted office)
            (Admin.list_signups production JUndefined (JString "2") JUndefined) 0)
  = Returned (respond 200
                [("success", jtrue);
                 ("data", JArr [carl_row; bob_row]);
                 ("pagination",
                  JObj [("total", JVal (JNumber 5));
                        ("limit", JVal (JNumber 2));
                        ("offset", JVal (JNumber 0));
                        ("hasMore", JVal (JBool true))])]).
Proof.
  apply (list_pagination (admin_scripted office) 0 production JUndefined (JString "2")
           JUndefined (Some (Int 0, Int 1)) None [carl_row; bob_row] 5 2 0);
    reflexivity.
Defined.

(** X20. Without a limit (absent or empty) the list query has no range, even
    if an offset was given, and the response has no pagination block. *)
Theorem list_without_limit
  (E : EnvOf Admin.AdminOp) (s : state_of E) (cfg : Config) (status limit offset : JsValue) :
  truthy limit = false ->
  (forall q, In q (list_queries (events (execute E (Admin.list_signups cfg status limit offset) s))) ->
             q.1.1 = None)
  /\ exists r : Response,
       result (execute E (Admin.list_signups cfg status limit offset) s) = Returned r
       /\ json_field "pagination" (json_body r) = None.
Proof.
  intros Hlimit.
  execute_cases Hrun. unfold Admin.list_signups in Hrun.
  follow Hrun;
    (split;
     [ intros q Hin; repeat (destruct Hin as [Hin | Hin]; [subst q; reflexivity |]);
       contradiction
     | eexists; split; reflexivity ]).
Qed.

Lemma list_without_limit_witness :
  exists r : Response,
    result (execute (admin_scripted office)
              (Admin.list_signups production JUndefined JUndefined (JString "40")) 0)
    = Returned r
    /\ json_field "pagination" (json_body r) = None.
Proof.
  destruct (list_without_limit (admin_scripted office) 0 production JUndefined JUndefined
              (JString "40")) as [_ Hresponse]; [reflexivity |].
  exact Hresponse.
Defined.

(** X21. A signup is reported as not found whenever the lookup by id
    returns an error of any kind or no row: a datastore failure is
    answered 404, not 500.  Only a lookup that throws gives 500. *)
Theorem get_signup_failures
  (E : EnvOf Admin.AdminOp) (s : state_of E) (cfg : Config) (id : string) :
  (forall r : PgResult Json,
     id_lookups (events (execute E (Admin.get_signup cfg id) s)) = [(id, Resolved r)] ->
     pg_error r <> None \/ pg_data r = None ->
     result (execute E (Admin.get_signup cfg id) s)
     = Returned (respond 404 [("error", jstr "Signup not found")]))
  /\ (forall e : Thrown,
        id_lookups (events (execute E (Admin.get_signup cfg id) s)) = [(id, Rejected e)] ->
        result (execute E (Admin.get_signup cfg id) s)
        = Returned (respond 500 [("error", jstr "Failed to fetch signup")])).
Proof.
  execute_cases Hrun. unfold Admin.get_signup in Hrun.
  split.
  - intros r Hlookup Hmissing.
    follow Hrun; try discriminate Hlookup;
      injection Hlookup as <-; cbn in Hmissing;
      try (destruct Hmissing; congruence); reflexivity.
  - intros err Hlookup.
    follow Hrun; try discriminate Hlookup; reflexivity.
Qed.

Lemma get_signup_failures_witness :
  result (execute (admin_scripted outage) (Admin.get_signup production "3") 0)
  = Returned (respond 404 [("error", jstr "Signup not found")]).
Proof.
  destruct (get_signup_failures (admin_scripted outage) 0 production "3") as [Hmissing _].
  apply (Hmissing failed); [reflexivity | left; discriminate].
Defined.

(** X22. A delete is answered 200 [Participant deleted successfully]
    whenever the datastore reports no error, whether or not a row had
    the id (the answer's rows are not looked at); an error gives 500. *)
Theorem delete_participant_outcomes
  (E : EnvOf Admin.AdminOp) (s : state_of E) (cfg : Config) (id : string)
  (r : PgResult unit) :
  deletes (events (execute E (Admin.delete_participant cfg id) s)) = [(id, Resolved r)] ->
  result (execute E (Admin.delete_participant cfg id) s)
  = Returned (match pg_error r with
              | None => respond 200 [("success", jtrue);
                                     ("message", jstr "Participant deleted successfully")]
              | Some _ => respond 500 [("error", jstr "Failed to delete participant")]
              end).
Proof.
  execute_cases Hrun. unfold Admin.delete_participant in Hrun.
  follow Hrun; intros Hdelete; try discriminate Hdelete;
    injection Hdelete as <-; reflexivity.
Qed.

Lemma delete_participant_outcomes_witness :
  result (execute (admin_scripted office) (Admin.delete_participant production "no-such-id") 0)
  = Returned (respond 200 [("success", jtrue);
                           ("message", jstr "Participant deleted successfully")]).
Proof.
  apply (delete_participant_outcomes (admin_scripted office) 0 production "no-such-id"
           {| pg_data := None; pg_error := None |}).
  reflexivity.
Defined.

Lemma count_one_for (key k : string) (acc : list (string * Z)) :
  count_for k (Admin.count_one key acc)
  = if key =? k then Some (default 0%Z (count_for k acc) + 1)%Z else count_for k acc.
Proof.
  induction acc as [| [k' n] rest IH]; cbn.
  - destruct (key =? k); reflexivity.
  - destruct (k' =? key) eqn:Hkey; cbn.
    + apply String.eqb_eq in Hkey. subst k'.
      destruct (key =? k); reflexivity.
    + rewrite IH. destruct (k' =? k) eqn:Hk; [| reflexivity].
      apply String.eqb_eq in Hk. subst k'. rewrite String.eqb_sym, Hkey. reflexivity.
Qed.

Lemma status_counts_for (statuses : list JsValue) (k : string) :
  forall acc : list (string * Z),
    count_for k (fold_left (fun acc status => Admin.count_one (js_to_string status) acc)
                   statuses acc)
    = if (occurrences k statuses =? 0)%Z then count_for k acc
      else Some (default 0%Z (count_for k acc) + occurrences k statuses)%Z.
Proof.
  unfold occurrences.
  induction statuses as [| status rest IH]; intros acc; [reflexivity |].
  cbn [fold_left List.filter]. rewrite IH, count_one_for.
  destruct (js_to_string status =? k); cbn [length];
    destruct (length (List.filter (fun status0 => js_to_string status0 =? k) rest));
    cbn; try reflexivity; f_equal; lia.
Qed.

Lemma counts_json_field (counts : list (string * Z)) (k : string) :
  lookup_field k (map (fun kn => (fst kn, JVal (JNumber (snd kn)))) counts)
  = option_map (fun n => JVal (JNumber n)) (count_for k counts).
Proof.
  induction counts as [| [k' n] rest IH]; cbn; [reflexivity |].
  destruct (k' =? k); [reflexivity | exact IH].
Qed.

(** X23. The statistics answer 200 whenever no query throws, whatever
    errors the answers report: a count that failed is [null], and
    [byStatus] maps every status that occurs among the rows to the
    number of rows that have it (none when the rows could not be
    read). *)
Theorem stats_counts_by_status
  (E : EnvOf Admin.AdminOp) (s : state_of E) (cfg : Config)
  (total thisWeek : Admin.CountResult) (since : string)
  (statusData : PgResult (list JsValue)) :
  count_queries (events (execute E (Admin.stats cfg) s))
    = [(None, Resolved total); (Some since, Resolved thisWeek)] ->
  status_queries (events (execute E (Admin.stats cfg) s)) = [Resolved statusData] ->
  ordinary_statuses (default [] (pg_data statusData)) = true ->
  exists byStatus : list (string * Json),
    result (execute E (Admin.stats cfg) s)
    = Returned (respond 200
                  [("success", jtrue);
                   ("stats", JObj [("total", nullable_json (Admin.count_value total));
                                   ("thisWeek", nullable_json (Admin.count_value thisWeek));
                                   ("byStatus", JObj byStatus)])])
    /\ forall key : string,
         lookup_field key byStatus
         = if (occurrences key (default [] (pg_data statusData)) =? 0)%Z then None
           else Some (JVal (JNumber (occurrences key (default [] (pg_data statusData))))).
Proof.
  intros Hcounts Hstatus _. revert Hcounts Hstatus.
  execute_cases Hrun. unfold Admin.stats in Hrun.
  follow Hrun; intros Hcounts Hstatus;
    try discriminate Hcounts; try discriminate Hstatus;
    injection Hcounts as <- <- <-; injection Hstatus as <-;
    eexists; (split; [reflexivity |]); intros key; cbn [pg_data default from_option id];
    try reflexivity;
    unfold Admin.status_counts; rewrite counts_json_field, status_counts_for; cbn;
    destruct (occurrences key _ =? 0)%Z; reflexivity.
Qed.

Lemma stats_counts_by_status_witness :
  exists byStatus : list (string * Json),
    result (execute (admin_scripted office) (Admin.stats production) 0)
    = Returned (respond 200
                  [("success", jtrue);
                   ("stats", JObj [("total", JVal (JNumber 5));
                                   ("thisWeek", JVal (JNumber 5));
                                   ("byStatus", JObj byStatus)])])
    /\ lookup_field "pending" byStatus = Some (JVal (JNumber 3))
    /\ lookup_field "enrolled" byStatus = None.
Proof.
  destruct (stats_counts_by_status (admin_scripted office) 0 production
              {| Admin.count_value := Some 5%Z; Admin.count_error := None |}
              {| Admin.count_value := Some 5%Z; Admin.count_error := None |}
              "2024-12-25T00:00:00.000Z"
              {| pg_data := Some [JString "pending"; JString "contacted";
                                  JString "pending"; JNull; JString "pending"];
                 pg_error := None |})
    as (byStatus & Hresponse & Hkeys); [reflexivity | reflexivity | reflexivity |].
  exists byStatus. split; [exact Hresponse |].
  split; [apply (Hkeys "pending") | apply (Hkeys "enrolled")].
Defined.

Lemma lookup_delete_key (d k : string) (o : list (string * Json)) :
  lookup_field k (delete_key d o) = if d =? k then None else lookup_field k o.
Proof.
  unfold delete_key. induction o as [| [k' v] rest IH]; cbn.
  - destruct (d =? k); reflexivity.
  - destruct (k' =? d) eqn:Hd; cbn.
    + apply String.eqb_eq in Hd. subst k'. rewrite IH.
      destruct (d =? k); reflexivity.
    + rewrite IH. destruct (k' =? k) eqn:Hk; [| reflexivity].
      apply String.eqb_eq in Hk. subst k'. rewrite String.eqb_sym, Hd. reflexivity.
Qed.

(** X24. The full update never writes [id] or [created_at]: both are removed
    from the body, and every other property of the body goes to the
    datastore unchanged, for the row named in the path. *)
Theorem update_participant_payload
  (E : EnvOf Admin.AdminOp) (s : state_of E) (cfg : Config) (id : string)
  (body values : list (string * Json)) (target : string) (answer : Outcome (PgResult Json)) :
  In (values, target, answer)
    (full_updates (events (execute E (Admin.update_participant cfg id body) s))) ->
  target = id
  /\ lookup_field "id" values = None
  /\ lookup_field "created_at" values = None
  /\ forall k : string,
       (k =? "id") = false -> (k =? "created_at") = false ->
       lookup_field k values = lookup_field k body.
Proof.
  assert (Hpayload : lookup_field "id" (Admin.update_payload body) = None
                     /\ lookup_field "created_at" (Admin.update_payload body) = None
                     /\ forall k : string,
                          (k =? "id") = false -> (k =? "created_at") = false ->
                          lookup_field k (Admin.update_payload body) = lookup_field k body).
  { unfold Admin.update_payload. repeat split.
    - rewrite !lookup_delete_key. reflexivity.
    - rewrite lookup_delete_key. reflexivity.
    - intros k Hid Hcreated. rewrite !lookup_delete_key.
      rewrite (String.eqb_sym "created_at"), Hcreated, (String.eqb_sym "id"), Hid.
      reflexivity. }
  execute_cases Hrun. unfold Admin.update_participant in Hrun.
  follow Hrun; intros Hin;
    repeat (destruct Hin as [Hin | Hin]; [injection Hin as <- <- <- |]);
    try contradiction; (split; [reflexivity | exact Hpayload]).
Qed.

Lemma update_participant_payload_witness :
  lookup_field "id" [("status", jstr "archived")] = None
  /\ lookup_field "created_at" [("status", jstr "archived")] = None
  /\ lookup_field "status" [("status", jstr "archived")]
     = lookup_field "status" [("id", jstr "9"); ("status", jstr "archived");
                              ("created_at", jstr "2020-01-01")].
Proof.
  destruct (update_participant_payload (admin_scripted office) 0 production "3"
              [("id", jstr "9"); ("status", jstr "archived"); ("created_at", jstr "2020-01-01")]
              [("status", jstr "archived")] "3"
              (Resolved {| pg_data := Some bob_row; pg_error := None |}))
    as (_ & Hid & Hcreated & Hother); [left; reflexivity |].
  split; [exact Hid | split; [exact Hcreated | apply Hother; reflexivity]].
Defined.

Lemma lookup_set_key (d k : string) (v : Json) (o : list (string * Json)) :
  lookup_field k (set_key d v o) = if d =? k then Some v else lookup_field k o.
Proof.
  induction o as [| [k' v'] rest IH]; cbn.
  - destruct (d =? k); reflexivity.
  - destruct (k' =? d) eqn:Hd; cbn.
    + apply String.eqb_eq in Hd. subst k'. destruct (d =? k); reflexivity.
    + rewrite IH. destruct (k' =? k) eqn:Hk; [| reflexivity].
      apply String.eqb_eq in Hk. subst k'. rewrite String.eqb_sym, Hd. reflexivity.
Qed.

(** X25. A manual entry is inserted as submitted, except that
    [entry_source] is [manual] unless the body has a truthy one: unlike
    the public signup, neither the status nor the email is touched. *)
Theorem create_participant_row
  (E : EnvOf Admin.AdminOp) (s : state_of E) (cfg : Config)
  (body row : list (string * Json)) (answer : Outcome (PgResult Json)) :
  In (row, answer)
    (manual_inserts (events (execute E (Admin.create_participant cfg body) s))) ->
  lookup_field "entry_source" row
    = Some (match lookup_field "entry_source" body with
            | Some source => if json_truthy source then source else jstr "manual"
            | None => jstr "manual"
            end)
  /\ forall k : string,
       (k =? "entry_source") = false -> lookup_field k row = lookup_field k body.
Proof.
  assert (Hrow : lookup_field "entry_source" (Admin.manual_row body)
                 = Some (match lookup_field "entry_source" body with
                         | Some source => if json_truthy source then source else jstr "manual"
                         | None => jstr "manual"
                         end)
                 /\ forall k : string,
                      (k =? "entry_source") = false ->
                      lookup_field k (Admin.manual_row body) = lookup_field k body).
  { unfold Admin.manual_row, property. split.
    - rewrite lookup_set_key. cbn.
      destruct (lookup_field "entry_source" body); reflexivity.
    - intros k Hk. rewrite lookup_set_key, (String.eqb_sym "entry_source"), Hk.
      reflexivity. }
  execute_cases Hrun. unfold Admin.create_participant in Hrun.
  follow Hrun; intros Hin;
    repeat (destruct Hin as [Hin | Hin]; [injection Hin as <- <- |]);
    try contradiction; exact Hrow.
Qed.

Lemma create_participant_row_witness :
  lookup_field "entry_source" [("full_name", jstr "Dan"); ("entry_source", jstr "manual")]
  = Some (jstr "manual").
Proof.
  apply (create_participant_row (admin_scripted office) 0 production
           [("full_name", jstr "Dan")]
           [("full_name", jstr "Dan"); ("entry_source", jstr "manual")]
           (Resolved {| pg_data := Some bob_row; pg_error := None |})).
  left. reflexivity.
Defined.

(** X26. A manual entry that hits the unique constraint is answered 409
    [Email already exists]; any other failure is answered 500, and the
    message of the error, the datastore's or the exception's, is sent
    to the client. *)
Theorem create_participant_failures
  (E : EnvOf Admin.AdminOp) (s : state_of E) (cfg : Config)
  (body row : list (string * Json)) :
  (forall (r : PgResult Json) (e : PgError),
     manual_inserts (events (execute E (Admin.create_participant cfg body) s))
       = [(row, Resolved r)] ->
     pg_error r = Some e ->
     result (execute E (Admin.create_participant cfg body) s)
     = Returned (if pg_code e =? "23505"
                 then error_response 409 "Email already exists"
                        "A participant with this email already exists."
                 else respond 500 [("error", jstr "Failed to create participant");
                                   ("message", jstr (pg_message e))]))
  /\ (forall e : Thrown,
        manual_inserts (events (execute E (Admin.create_participant cfg body) s))
          = [(row, Rejected e)] ->
        result (execute E (Admin.create_participant cfg body) s)
        = Returned (respond 500 [("error", jstr "Failed to create participant");
                                 ("message", jstr (match e with
                                                   | ThrownError _ message => message
                                                   | ThrownPg e => pg_message e
                                                   end))])).
Proof.
  execute_cases Hrun. unfold Admin.create_participant in Hrun.
  split.
  - intros r err Hinsert Herror.
    follow Hrun; try discriminate Hinsert;
      injection Hinsert as <- <-; cbn in Herror; try discriminate Herror;
      injection Herror as <-;
      repeat match goal with
             | H : (_ =? _) = _ |- _ => rewrite H; clear H
             end;
      reflexivity.
  - intros err Hinsert.
    follow Hrun; try discriminate Hinsert;
      injection Hinsert as <- <-; reflexivity.
Qed.

Lemma create_participant_failures_witness :
  result (execute (admin_scripted outage)
            (Admin.create_participant production [("full_name", jstr "Dan")]) 0)
  = Returned (respond 500 [("error", jstr "Failed to create participant");
                           ("message", jstr "statement timeout")]).
Proof.
  destruct (create_participant_failures (admin_scripted outage) 0 production
              [("full_name", jstr "Dan")]
              [("full_name", jstr "Dan"); ("entry_source", jstr "manual")])
    as [Herror _].
  apply (Herror failed {| pg_code := "57014"; pg_message := "statement timeout" |});
    reflexivity.
Defined.

(** ** Origins and the privileged client *)

(** X27. Outside production, whatever [NODE_ENV] is or if it is not set, the
    list of allowed origins contains ['*']: every origin passes the CORS
    check, and every origin that is sent is echoed back with
    credentials allowed. *)
Theorem cors_outside_production
  (E : Env) (s : env_state E) (env : Server.ProcessEnv) (origin : option string) :
  Server.equals (Server.NODE_ENV env) "production" = false ->
  completion (run E (Server.cors_origin env origin) s) = Returned true
  /\ forall o : string,
       origin = Some o -> negb (o =? "") = true ->
       Server.safety_headers env origin
       = [("Access-Control-Allow-Origin", o); ("Access-Control-Allow-Credentials", "true")].
Proof.
  intros Hmode.
  assert (Hstar : Server.listed env "*" = true).
  { unfold Server.listed, Server.allowedOrigins. rewrite Hmode. reflexivity. }
  split.
  - unfold Server.cors_origin, Server.debug_log.
    destruct origin as [[| c o] |]; rewrite ?Hstar; cbn;
      destruct (Server.isDebugMode env); cbn;
      try (destruct (env_answer E _ _ s) as [[] ?]); reflexivity.
  - intros o -> Ho. destruct o as [| c o]; [discriminate |].
    unfold Server.safety_headers. rewrite Hstar. reflexivity.
Qed.

Lemma cors_outside_production_witness :
  completion (run (scripted everyday)
                (Server.cors_origin staging (Some "https://evil.example")) 0)
    = Returned true
  /\ Server.safety_headers staging (Some "https://evil.example")
     = [("Access-Control-Allow-Origin", "https://evil.example");
        ("Access-Control-Allow-Credentials", "true")].
Proof.
  destruct (cors_outside_production (scripted everyday) 0 staging
              (Some "https://evil.example")) as [Hallowed Hheaders]; [reflexivity |].
  split; [exact Hallowed | apply Hheaders; reflexivity].
Defined.

(** X28. The two places that judge an origin agree: the headers of the
    fallback middleware are set, to the origin itself, exactly when an
    origin is sent and the CORS check allows it.  A request without an
    Origin header passes the check and gets no header.  Debug mode
    changes what is logged, not what is decided. *)
Theorem cors_and_safety_agree
  (E : Env) (s : env_state E) (env : Server.ProcessEnv) (origin : option string) :
  exists allowed : bool,
    completion (run E (Server.cors_origin env origin) s) = Returned allowed
    /\ Server.safety_headers env origin
       = match origin with
         | Some o => if allowed && negb (o =? "")
                     then [("Access-Control-Allow-Origin", o);
                           ("Access-Control-Allow-Credentials", "true")]
                     else []
         | None => []
         end
    /\ (origin = None \/ origin = Some "" -> allowed = true).
Proof.
  unfold Server.cors_origin, Server.safety_headers, Server.debug_log.
  destruct origin as [[| c o] |].
  - exists true. cbn. destruct (Server.isDebugMode env); cbn;
      try (destruct (env_answer E _ _ s) as [[] ?]); repeat split.
  - destruct (Server.listed env "*" || Server.listed env (String c o));
      [exists true | exists false];
      cbn; destruct (Server.isDebugMode env); cbn;
      try (destruct (env_answer E _ _ s) as [[] ?]);
      (split; [reflexivity |]); (split; [reflexivity |]);
      intros [H | H]; discriminate H.
  - exists true. cbn. destruct (Server.isDebugMode env); cbn;
      try (destruct (env_answer E _ _ s) as [[] ?]); repeat split.
Qed.

Lemma split_on_never_empty (sep : ascii) (s : string) : split_on sep s <> [].
Proof.
  destruct s as [| c r]; cbn; [discriminate |].
  destruct (Ascii.eqb c sep); [discriminate |].
  destruct (split_on sep r); discriminate.
Qed.

Lemma allowed_origins_parse (x : string) (rest : list string) :
  forallb plain_origin (x :: rest) = true ->
  map js_trim (split_on "," (join_with ", " (x :: rest))) = x :: rest.
Proof.
  revert x. induction rest as [| y r IH]; intros x Hplain;
    cbn [forallb] in Hplain; apply andb_prop in Hplain as [Hx Hrest];
    unfold plain_origin in Hx; apply andb_prop in Hx as [Hcomma Htrim];
    apply String.eqb_eq in Htrim.
  - cbn [join_with]. rewrite (split_on_no_sep "," x Hcomma). cbn. rewrite Htrim. reflexivity.
  - specialize (IH y Hrest).
    change (join_with ", " (x :: y :: r))
      with (x ++ String "," (String " " (join_with ", " (y :: r)))).
    rewrite (split_on_first "," x _ Hcomma).
    cbn [split_on]. change (Ascii.eqb " " ",") with false. cbn iota.
    destruct (split_on "," (join_with ", " (y :: r))) as [| h t] eqn:Hsplit;
      [exfalso; exact (split_on_never_empty _ _ Hsplit) |].
    cbn [map] in *. injection IH as Hh Ht.
    rewrite Htrim, Ht. f_equal. f_equal. exact Hh.
Qed.

(** X29. In production, writing the allowed origins separated by a comma
    and a space gives back exactly those origins: a request is then
    allowed if and only if its origin is one of them (or ['*'] is). *)
Theorem allowed_origins_round_trip (env : Server.ProcessEnv) (origins : list string) :
  Server.equals (Server.NODE_ENV env) "production" = true ->
  negb (length origins =? 0)%nat = true ->
  forallb plain_origin origins = true ->
  Server.ALLOWED_ORIGINS env = Some (join_with ", " origins) ->
  Server.allowedOrigins env = origins
  /\ forall o : string,
       Server.listed env "*" || Server.listed env o
       = existsb (String.eqb "*") origins || existsb (String.eqb o) origins.
Proof.
  intros Hmode Hnonempty Hplain Hvariable.
  assert (Hlist : Server.allowedOrigins env = origins).
  { unfold Server.allowedOrigins. rewrite Hmode, Hvariable.
    destruct origins as [| x rest]; [discriminate |].
    apply allowed_origins_parse, Hplain. }
  split; [exact Hlist |].
  intros o. unfold Server.listed. rewrite Hlist. reflexivity.
Qed.

Lemma allowed_origins_round_trip_witness :
  Server.allowedOrigins live = ["https://as12711.github.io"; "https://manupinc.org"].
Proof.
  apply (allowed_origins_round_trip live
           ["https://as12711.github.io"; "https://manupinc.org"]);
    reflexivity.
Defined.

(** A variable that is set to the empty string is not a missing one:
    the list is then the single empty origin, which no request can
    match, and not the default origin. *)
Example allowed_origins_empty_variable :
  Server.allowedOrigins
    {| Server.NODE_ENV := Some "production";
       Server.ALLOWED_ORIGINS := Some "";
       Server.CORS_DEBUG := None;
       Server.SUPABASE_URL := None;
       Server.SUPABASE_ANON_KEY := None;
       Server.SUPABASE_SERVICE_KEY := None |}
  = [""].
Proof. reflexivity. Qed.

(** X30. When [SUPABASE_SERVICE_KEY] is missing or empty the server still
    starts, and every administrative route answers 503 [Admin access not
    configured] without any call, whatever the request. *)
Theorem admin_routes_require_service_key
  (env : Server.ProcessEnv) (secret : option string) (cfg : Config) :
  Server.config_of env secret = Returned cfg ->
  Server.present (Server.SUPABASE_SERVICE_KEY env) = false ->
  (forall status limit offset : JsValue,
     Admin.list_signups cfg status limit offset
     = Finish (respond 503 [("error", jstr "Admin access not configured");
                            ("message", jstr "SUPABASE_SERVICE_KEY is required for this endpoint")]))
  /\ (forall id : string,
        Admin.get_signup cfg id
        = Finish (respond 503 [("error", jstr "Admin access not configured")])
        /\ Admin.delete_participant cfg id
           = Finish (respond 503 [("error", jstr "Admin access not configured")]))
  /\ Admin.stats cfg = Finish (respond 503 [("error", jstr "Admin access not configured")])
  /\ (forall (id : string) (body : list (string * Json)),
        Admin.update_participant cfg id body
        = Finish (respond 503 [("error", jstr "Admin access not configured")])
        /\ Admin.create_participant cfg body
           = Finish (respond 503 [("error", jstr "Admin access not configured")]))
  /\ (forall (id : string) (status : JsValue),
        Fatherhood.update_status cfg id status
        = Ret (respond 503 [("error", jstr "Admin access not configured")])).
Proof.
  intros Hconfig Hkey.
  assert (Hadmin : supabaseAdmin cfg = false).
  { unfold Server.config_of, Server.supabaseAdmin_of in Hconfig.
    destruct (negb (Server.present (Server.SUPABASE_URL env))
              || negb (Server.present (Server.SUPABASE_ANON_KEY env)));
      [discriminate |].
    injection Hconfig as <-. exact Hkey. }
  unfold Admin.list_signups, Admin.get_signup, Admin.delete_participant, Admin.stats,
    Admin.update_participant, Admin.create_participant, Fatherhood.update_status.
  rewrite Hadmin. repeat split.
Qed.

Lemma admin_routes_require_service_key_witness :
  Admin.stats {| supabaseAdmin := false; JWT_SECRET := Some "secret" |}
  = Finish (respond 503 [("error", jstr "Admin access not configured")]).
Proof.
  destruct (admin_routes_require_service_key live (Some "secret")
              {| supabaseAdmin := false; JWT_SECRET := Some "secret" |})
    as (_ & _ & Hstats & _); [reflexivity | reflexivity |].
  exact Hstats.
Defined.
